(** * Verification of [benchmark.py]: token counting and stream consumption

    A shallow embedding of the tokens-per-second benchmark client.  The
    Python functions [token_count], [run_non_streaming] and [run_streaming]
    are rendered as Rocq functions over a small model of the dynamically
    typed values that [json.loads] and [requests] hand to them.

    Conventions.
    - A Python [str] is a [string]; every [ascii] stands for one code point
      in the range U+0000..U+00FF.
    - A Python [float] is an IEEE binary64 number, [spec_float] with
      precision 53 and maximal exponent 1024.
    - A Python exception (an instance of [Exception]) is a value of [exn];
      code that may raise returns a [result].
    - [time.time()] reads a clock that is threaded explicitly: the n-th call
      of a run returns [clock n].
    - [json.loads] and the [tiktoken] package are collaborators outside the
      repository: the decoder is a Section variable, the package a record
      of the entry points that the code calls. *)

From Stdlib Require Import String Ascii List ZArith NArith Bool Lia Arith.
From Stdlib Require Import SpecFloat.
From Stdlib Require DecimalString DecimalZ.
Import ListNotations.

Set Warnings "-register-all".

Local Open Scope string_scope.
Local Open Scope list_scope.

(** ** Exceptions and fallible computations *)

Inductive exn : Type :=
| TypeError
| AttributeError
| KeyError
| IndexError
| ZeroDivisionError
| OverflowError
| UnboundLocalError (name : string)
| JSONDecodeError
| HTTPError
| LibraryError (what : string).

Inductive result (A : Type) : Type :=
| Ok (a : A)
| Raise (e : exn).

Arguments Ok {A} a.
Arguments Raise {A} e.

Definition bind {A B : Type} (m : result A) (k : A -> result B) : result B :=
  match m with
  | Ok a => k a
  | Raise e => Raise e
  end.

(** [try m except Exception: h] *)
Definition try_except {A : Type} (m : result A) (h : exn -> result A) : result A :=
  match m with
  | Ok a => Ok a
  | Raise e => h e
  end.

Declare Scope py_scope.
Delimit Scope py_scope with py.
Notation "x <- m ;; k" := (bind m (fun x => k))
  (at level 61, m at next level, right associativity) : py_scope.
Local Open Scope py_scope.

Definition is_ok {A : Type} (m : result A) : bool :=
  match m with Ok _ => true | Raise _ => false end.

(** ** Floats *)

Definition float : Type := spec_float.

Definition prec : Z := 53.
Definition emax : Z := 1024.

Definition fzero : float := S754_zero false.
Definition finf : float := S754_infinity false.
Definition fsub (x y : float) : float := SFsub prec emax x y.
Definition fdiv (x y : float) : float := SFdiv prec emax x y.
Definition fltb (x y : float) : bool := SFltb x y.
Definition feqb (x y : float) : bool := SFeqb x y.

(** [bool(x)] for a float: everything but the two zeros is true. *)
Definition float_truthy (x : float) : bool :=
  match x with
  | S754_zero _ => false
  | _ => true
  end.

Definition float_is_finite (x : float) : bool :=
  match x with
  | S754_zero _ | S754_finite _ _ _ => true
  | _ => false
  end.

(** [float(n)] for an int: rounding to nearest even, [OverflowError] when
    the magnitude exceeds the largest finite double. *)
Definition float_of_int (n : Z) : result float :=
  match binary_normalize prec emax n 0 false with
  | S754_infinity _ => Raise OverflowError
  | f => Ok f
  end.

(** The integer nearest to [n * 2^e], a tie going to the even one. *)
Definition round_half_even (n : Z) (e : Z) : Z :=
  match e with
  | Zneg p =>
      let d := Z.pow_pos 2 p in
      let q := (n / d)%Z in
      let r := (n mod d)%Z in
      match Z.compare (2 * r) d with
      | Lt => q
      | Gt => (q + 1)%Z
      | Eq => if Z.even q then q else (q + 1)%Z
      end
  | _ => (n * 2 ^ e)%Z
  end.

(** [round(x, ndigits)] for a float and [ndigits >= 0]: the exact value of
    [x] is rounded to the nearest multiple of [10 ** -ndigits], ties to the
    even digit, and that decimal is converted to the nearest float; zeros,
    infinities and NaN are returned as they are and the sign is kept.  (The
    conversion cannot leave the range of the floats for the 6 digits used
    here: a float that large is an integer and rounds to itself.) *)
Definition py_round (ndigits : Z) (x : float) : float :=
  match x with
  | S754_finite s m e =>
      let scale := (10 ^ ndigits)%Z in
      match round_half_even (Z.pos m * scale) e with
      | Zpos k =>
          SFdiv prec emax (S754_finite s k 0) (S754_finite false (Z.to_pos scale) 0)
      | _ => S754_zero s
      end
  | _ => x
  end.

(** ** Characters and strings *)

Definition code (c : ascii) : N := N_of_ascii c.

Definition in_range (lo hi : N) (c : ascii) : bool :=
  (N.leb lo (code c) && N.leb (code c) hi)%bool.

(** [str.isspace] on one code point below 256: the controls 0x09..0x0D and
    0x1C..0x1F, the space, NEL (0x85) and the no-break space (0xA0).  This
    is also the class [\s] of the [re] module on [str] patterns. *)
Definition py_isspace (c : ascii) : bool :=
  (in_range 9 13 c || in_range 28 32 c
   || N.eqb (code c) 133 || N.eqb (code c) 160)%bool.

(** [str.isalnum] on one code point below 256. *)
Definition py_isalnum (c : ascii) : bool :=
  (in_range 48 57 c || in_range 65 90 c || in_range 97 122 c
   || N.eqb (code c) 170 || in_range 178 179 c || N.eqb (code c) 181
   || in_range 185 186 c || in_range 188 190 c
   || in_range 192 214 c || in_range 216 246 c || in_range 248 255 c)%bool.

(** The class [\w] of the [re] module: alphanumeric or underscore. *)
Definition re_word (c : ascii) : bool :=
  (py_isalnum c || N.eqb (code c) 95)%bool.

Definition str_is_empty (s : string) : bool :=
  match s with
  | EmptyString => true
  | String _ _ => false
  end.

(** [s.lstrip()] *)
Fixpoint lstrip (s : string) : string :=
  match s with
  | EmptyString => EmptyString
  | String c s' => if py_isspace c then lstrip s' else s
  end.

(** [s.rstrip()] *)
Fixpoint rstrip (s : string) : string :=
  match s with
  | EmptyString => EmptyString
  | String c s' =>
      let r := rstrip s' in
      if (str_is_empty r && py_isspace c)%bool then EmptyString else String c r
  end.

(** [s.strip()] *)
Definition strip (s : string) : string := rstrip (lstrip s).

(** [s.startswith(p)] *)
Fixpoint startswith (s p : string) : bool :=
  match p, s with
  | EmptyString, _ => true
  | String _ _, EmptyString => false
  | String a p', String b s' => (Ascii.eqb a b && startswith s' p')%bool
  end.

(** [s[n:]] *)
Fixpoint drop (n : nat) (s : string) : string :=
  match n, s with
  | O, _ => s
  | S _, EmptyString => EmptyString
  | S n', String _ s' => drop n' s'
  end.

(** [needle in hay] for two strings: substring test. *)
Fixpoint str_contains (hay needle : string) : bool :=
  (startswith hay needle
   || match hay with
      | EmptyString => false
      | String _ hay' => str_contains hay' needle
      end)%bool.


(** ** Dynamically typed values

    The values [json.loads] and [Response.json] can produce.  A [dict] has
    string keys only (it comes from a JSON object) and is kept as an
    association list in insertion order; [dict_lookup] returns the binding
    that a Python lookup would. *)

Inductive pyval : Type :=
| PyNone
| PyBool (b : bool)
| PyInt (n : Z)
| PyFloat (x : float)
| PyStr (s : string)
| PyList (items : list pyval)
| PyDict (entries : list (string * pyval)).

Fixpoint dict_lookup (key : string) (entries : list (string * pyval)) : option pyval :=
  match entries with
  | [] => None
  | (k, v) :: rest => if String.eqb k key then Some v else dict_lookup key rest
  end.

(** [bool(v)] *)
Definition truthy (v : pyval) : bool :=
  match v with
  | PyNone => false
  | PyBool b => b
  | PyInt n => negb (Z.eqb n 0)
  | PyFloat x => float_truthy x
  | PyStr s => negb (str_is_empty s)
  | PyList items => match items with [] => false | _ :: _ => true end
  | PyDict entries => match entries with [] => false | _ :: _ => true end
  end.

(** [isinstance(v, dict)] *)
Definition isinstance_dict (v : pyval) : bool :=
  match v with
  | PyDict _ => true
  | _ => false
  end.

(** [v is None] *)
Definition is_none (v : pyval) : bool :=
  match v with
  | PyNone => true
  | _ => false
  end.

(** [key == v] for a string literal [key]. *)
Definition eq_str (key : string) (v : pyval) : bool :=
  match v with
  | PyStr s => String.eqb key s
  | _ => false
  end.

(** [key in v] for a string literal [key]: membership among the keys of a
    dict, among the items of a list, substring test on a str; every other
    type is not iterable. *)
Definition py_in (key : string) (v : pyval) : result bool :=
  match v with
  | PyDict entries =>
      Ok (match dict_lookup key entries with Some _ => true | None => false end)
  | PyList items => Ok (existsb (eq_str key) items)
  | PyStr s => Ok (str_contains s key)
  | _ => Raise TypeError
  end.

(** [v[key]] for a string literal [key]. *)
Definition getitem_key (v : pyval) (key : string) : result pyval :=
  match v with
  | PyDict entries =>
      match dict_lookup key entries with
      | Some x => Ok x
      | None => Raise KeyError
      end
  | _ => Raise TypeError
  end.

(** [v[0]] *)
Definition getitem_first (v : pyval) : result pyval :=
  match v with
  | PyList [] => Raise IndexError
  | PyList (x :: _) => Ok x
  | PyStr EmptyString => Raise IndexError
  | PyStr (String c _) => Ok (PyStr (String c EmptyString))
  | PyDict _ => Raise KeyError
  | _ => Raise TypeError
  end.

(** [v.get(key, default)]: only a dict has the method. *)
Definition py_get (v : pyval) (key : string) (default : pyval) : result pyval :=
  match v with
  | PyDict entries =>
      Ok (match dict_lookup key entries with Some x => x | None => default end)
  | _ => Raise AttributeError
  end.

(** [a or b] *)
Definition py_or (a b : pyval) : pyval := if truthy a then a else b.

(** [a / b] with a float right operand. *)
Definition float_truediv (x y : float) : result float :=
  match y with
  | S754_zero _ => Raise ZeroDivisionError
  | _ => Ok (fdiv x y)
  end.

Definition py_truediv (a : pyval) (y : float) : result float :=
  match a with
  | PyInt n => x <- float_of_int n ;; float_truediv x y
  | PyBool b => x <- float_of_int (if b then 1 else 0) ;; float_truediv x y
  | PyFloat x => float_truediv x y
  | _ => Raise TypeError
  end.

(** [''.join(chunks)]: every item has to be a str. *)
Fixpoint py_join (chunks : list pyval) : result string :=
  match chunks with
  | [] => Ok EmptyString
  | PyStr s :: rest => tail <- py_join rest ;; Ok (s ++ tail)%string
  | _ :: _ => Raise TypeError
  end.

(** ** The regular expressions of the heuristic

    The fragment of [re] that the pattern of [token_count] uses: a character
    class, a greedy [+] over a class, and an ordered choice.  No form matches
    the empty string. *)

Inductive regex : Type :=
| Class (p : ascii -> bool)
| Plus (p : ascii -> bool)
| Alt (r1 r2 : regex).

(** The longest prefix of [s] whose characters satisfy [p], and the rest. *)
Fixpoint span (p : ascii -> bool) (s : string) : string * string :=
  match s with
  | EmptyString => (EmptyString, EmptyString)
  | String c s' =>
      if p c then let (run, rest) := span p s' in (String c run, rest)
      else (EmptyString, s)
  end.

(** A match of [r] anchored at the start of [s]: the matched text and what
    follows it. *)
Fixpoint match_here (r : regex) (s : string) : option (string * string) :=
  match r with
  | Class p =>
      match s with
      | EmptyString => None
      | String c s' => if p c then Some (String c EmptyString, s') else None
      end
  | Plus p =>
      match span p s with
      | (EmptyString, _) => None
      | (run, rest) => Some (run, rest)
      end
  | Alt r1 r2 =>
      match match_here r1 s with
      | Some m => Some m
      | None => match_here r2 s
      end
  end.

(** [re.findall]: scan from the left; after a match resume behind it,
    otherwise move one character on. *)
Fixpoint findall_from (fuel : nat) (r : regex) (s : string) : list string :=
  match fuel with
  | O => []
  | S fuel' =>
      match match_here r s with
      | Some (m, rest) => m :: findall_from fuel' r rest
      | None =>
          match s with
          | EmptyString => []
          | String _ s' => findall_from fuel' r s'
          end
      end
  end.

Definition findall (r : regex) (s : string) : list string :=
  findall_from (String.length s) r s.

(** The class [[^\s\w]]. *)
Definition re_punct (c : ascii) : bool := negb (py_isspace c || re_word c).

(** [r"\w+|[^\s\w]"] *)
Definition token_pattern : regex := Alt (Plus re_word) (Class re_punct).

(** The heuristic fallback of [token_count] (lines 40-42). *)
Definition heuristic_count (text : pyval) : result Z :=
  match text with
  | PyStr s => Ok (Z.of_nat (List.length (findall token_pattern s)))
  | _ => Raise TypeError
  end.

(** ** [token_count] *)

(** The optional [tiktoken] package: whether its import succeeded (lines
    19-23) and the three entry points that [token_count] calls.  Each may
    raise. *)
Record tiktoken_module : Type := {
  TIKTOKEN_AVAILABLE : bool;
  encoding : Type;
  encoding_for_model : string -> result encoding;
  get_encoding : string -> result encoding;
  encode : encoding -> pyval -> result (list Z)
}.

Section TokenCounter.

Variable tiktoken : tiktoken_module.

Definition default_encoding : string := "cl100k_base".

(** Lines 33-36: [model] is tested for truth, so [None] and the empty
    string both select the default encoding directly. *)
Definition resolve_encoding (model : option string) : result (encoding tiktoken) :=
  try_except
    (match model with
     | Some m =>
         if negb (str_is_empty m) then encoding_for_model tiktoken m
         else get_encoding tiktoken default_encoding
     | None => get_encoding tiktoken default_encoding
     end)
    (fun _ => get_encoding tiktoken default_encoding).

(** Lines 33-37. *)
Definition tiktoken_count (text : pyval) (model : option string) : result Z :=
  enc <- resolve_encoding model ;;
  ids <- encode tiktoken enc text ;;
  Ok (Z.of_nat (List.length ids)).

Definition token_count (text : pyval) (model : option string) : result Z :=
  if negb (truthy text) then Ok 0%Z
  else if TIKTOKEN_AVAILABLE tiktoken then
    try_except (tiktoken_count text model) (fun _ => heuristic_count text)
  else heuristic_count text.

End TokenCounter.

(** ** The benchmark record and the HTTP response *)

(** The four entries of a benchmark result: the locals [num_tokens],
    [elapsed] and [tps] of a runner as [measure_non_streaming] and
    [measure_streaming] return them, and the dictionary handed to
    [json.dumps] as [run_non_streaming] and [run_streaming] return it. *)
Record report : Type := {
  mode : string;
  tokens : pyval;
  elapsed_seconds : float;
  tokens_per_second : float
}.

(** Lines 76-81 and 148-153: the dictionary that is printed, with
    [round(elapsed, 6)] and [round(tps, 6)]. *)
Definition reported (measured : report) : report :=
  {| mode := mode measured;
     tokens := tokens measured;
     elapsed_seconds := py_round 6 (elapsed_seconds measured);
     tokens_per_second := py_round 6 (tokens_per_second measured) |}.

(** What the runners use of a [requests.Response]. *)
Record response : Type := {
  raise_for_status : result unit;
  json : result pyval;
  iter_lines : list (option string)
}.

(** [num_tokens / elapsed if elapsed > 0 else float("inf")] (lines 74, 146). *)
Definition throughput (num_tokens : pyval) (elapsed : float) : result float :=
  if fltb fzero elapsed then py_truediv num_tokens elapsed else Ok finf.

(** ** Stream lines and fragments *)

(** Lines 100-103: the payload of a stripped, non-empty line. *)
Definition payload_of (line : string) : string :=
  if startswith line "data:" then strip (drop (String.length "data:") line)
  else line.

(** The body of the [try] at lines 124-132: the value assigned to
    [text_piece], or the exception that interrupts the block. *)
Definition choice_text (obj : pyval) : result pyval :=
  got <- py_get obj "choices" PyNone ;;
  let choices := py_or got (PyList []) in
  if truthy choices then
    ch <- getitem_first choices ;;
    has_delta <- py_in "delta" ch ;;
    chat <- (if has_delta : bool then
               delta <- getitem_key ch "delta" ;;
               Ok (isinstance_dict delta)
             else Ok false) ;;
    if chat : bool then
      delta <- getitem_key ch "delta" ;;
      py_get delta "content" (PyStr "")
    else
      has_text <- py_in "text" ch ;;
      if has_text : bool then py_get ch "text" (PyStr "") else Ok (PyStr "")
  else Ok (PyStr "").

(** Lines 122-134: [text_piece] keeps its initial empty string when the
    block raises, since every exception precedes the assignment. *)
Definition text_piece_of (obj : pyval) : pyval :=
  match choice_text obj with
  | Ok piece => piece
  | Raise _ => PyStr ""
  end.

(** The locals of the loop of [run_streaming], with the number of clock
    readings taken so far. *)
Record stream_state : Type := {
  first_token_time : option float;
  last_token_time : option float;
  chunks : list pyval;
  ticks : nat
}.

Definition initial_state : stream_state :=
  {| first_token_time := None; last_token_time := None; chunks := []; ticks := 0 |}.

Inductive flow : Type := Continue | Break.

(** Line 144: [(last - first) if (first and last) else 0.0]; the test is on
    the truth of the two values, so [None] and a zero reading both fail it. *)
Definition elapsed_of (st : stream_state) : float :=
  match first_token_time st, last_token_time st with
  | Some first, Some last =>
      if (float_truthy first && float_truthy last)%bool then fsub last first
      else fzero
  | _, _ => fzero
  end.

(** ** [run_non_streaming] *)

(** Lines 60-67, for a [data] that is a dict. *)
Definition response_text (data : pyval) : result pyval :=
  choices <- py_get data "choices" PyNone ;;
  if truthy choices then
    all <- getitem_key data "choices" ;;
    choice <- getitem_first all ;;
    has_message <- py_in "message" choice ;;
    chat <- (if has_message : bool then
               message <- getitem_key choice "message" ;;
               py_in "content" message
             else Ok false) ;;
    if chat : bool then
      message <- getitem_key choice "message" ;;
      getitem_key message "content"
    else
      has_text <- py_in "text" choice ;;
      if has_text : bool then getitem_key choice "text" else Ok (PyStr "")
  else Ok (PyStr "").

(** Lines 69-71, for a [data] that is a dict. *)
Definition response_usage (data : pyval) : result pyval :=
  has_usage <- py_in "usage" data ;;
  usable <- (if has_usage : bool then
               usage <- getitem_key data "usage" ;;
               Ok (isinstance_dict usage)
             else Ok false) ;;
  if usable : bool then
    usage <- getitem_key data "usage" ;;
    py_get usage "total_tokens" PyNone
  else Ok PyNone.

(** Lines 57-71: the locals [text] and [usage_tokens] after the extraction;
    [usage_tokens] is [None] here when the name was never bound. *)
Definition response_locals (data : pyval) : result (pyval * option pyval) :=
  if isinstance_dict data then
    text <- response_text data ;;
    usage_tokens <- response_usage data ;;
    Ok (text, Some usage_tokens)
  else Ok (PyStr "", None).

(** Reading a local variable. *)
Definition read_local (name : string) (slot : option pyval) : result pyval :=
  match slot with
  | Some v => Ok v
  | None => Raise (UnboundLocalError name)
  end.

Section Runners.

Variable tiktoken : tiktoken_module.
(** [time.time()]: the n-th call of a run returns [clock n]. *)
Variable clock : nat -> float.
Variable json_loads : string -> result pyval.

(** Line 73. *)
Definition count_tokens (usage_tokens : option pyval) (text : pyval) (model : string)
  : result pyval :=
  u <- read_local "usage_tokens" usage_tokens ;;
  if negb (is_none u) then Ok u
  else n <- token_count tiktoken text (Some model) ;; Ok (PyInt n).

(** Lines 50-74: the request, the extraction and the throughput. *)
Definition measure_non_streaming (post : result response) (model : string)
  : result report :=
  let start := clock 0 in
  r <- post ;;
  let elapsed := fsub (clock 1) start in
  _ <- raise_for_status r ;;
  data <- json r ;;
  locals <- response_locals data ;;
  num_tokens <- count_tokens (snd locals) (fst locals) model ;;
  tps <- throughput num_tokens elapsed ;;
  Ok {| mode := "non-stream";
        tokens := num_tokens;
        elapsed_seconds := elapsed;
        tokens_per_second := tps |}.

Definition run_non_streaming (post : result response) (model : string) : result report :=
  measured <- measure_non_streaming post model ;;
  Ok (reported measured).

(** ** [run_streaming] *)

(** Lines 114-118 and 137-141: append and stamp. *)
Definition record_fragment (st : stream_state) (piece : pyval) : stream_state :=
  let now := clock (ticks st) in
  {| first_token_time :=
       match first_token_time st with
       | None => Some now
       | Some t => Some t
       end;
     last_token_time := Some now;
     chunks := chunks st ++ [piece];
     ticks := S (ticks st) |}.

(** Lines 105-107. *)
Definition record_done (st : stream_state) : stream_state :=
  {| first_token_time := first_token_time st;
     last_token_time := Some (clock (ticks st));
     chunks := chunks st;
     ticks := S (ticks st) |}.

(** One iteration of the loop (lines 94-141). *)
Definition process_line (st : stream_state) (raw : option string) : stream_state * flow :=
  match raw with
  | None => (st, Continue)
  | Some raw =>
      let line := strip raw in
      if str_is_empty line then (st, Continue)
      else
        let payload_text := payload_of line in
        if String.eqb payload_text "[DONE]" then (record_done st, Break)
        else
          match json_loads payload_text with
          | Raise _ =>
              if negb (str_is_empty payload_text)
              then (record_fragment st (PyStr payload_text), Continue)
              else (st, Continue)
          | Ok obj =>
              let text_piece := text_piece_of obj in
              if truthy text_piece
              then (record_fragment st text_piece, Continue)
              else (st, Continue)
          end
  end.

(** The [for] loop (lines 93-141). *)
Fixpoint consume_lines (st : stream_state) (lines : list (option string)) : stream_state :=
  match lines with
  | [] => st
  | raw :: rest =>
      match process_line st raw with
      | (st', Break) => st'
      | (st', Continue) => consume_lines st' rest
      end
  end.

(** Lines 89-144: the accumulated text and the elapsed time. *)
Definition consume (lines : list (option string)) : result (string * float) :=
  let st := consume_lines initial_state lines in
  full_text <- py_join (chunks st) ;;
  Ok (full_text, elapsed_of st).

(** Lines 86-146: the request, the loop and the throughput. *)
Definition measure_streaming (post : result response) (model : string)
  : result report :=
  r <- post ;;
  _ <- raise_for_status r ;;
  consumed <- consume (iter_lines r) ;;
  let full_text := fst consumed in
  let elapsed := snd consumed in
  num_tokens <- token_count tiktoken (PyStr full_text) (Some model) ;;
  tps <- throughput (PyInt num_tokens) elapsed ;;
  Ok {| mode := "stream";
        tokens := PyInt num_tokens;
        elapsed_seconds := elapsed;
        tokens_per_second := tps |}.

Definition run_streaming (post : result response) (model : string) : result report :=
  measured <- measure_streaming post model ;;
  Ok (reported measured).

End Runners.

(** ** Concrete collaborators

    Instances of the outside world on which the development can be run: a
    decoder for plain JSON texts, three [tiktoken] environments and two
    clocks.  The theorems below hold for every decoder, environment and
    clock; these instances serve the worked examples. *)

Module Plain.

(** A decoder for JSON texts without escape sequences and with integer
    numbers only.  On such texts it returns what [json.loads] returns; on
    any other text it reports a decoding failure. *)

Definition quote : ascii := "034"%char.

Definition json_space (c : ascii) : bool :=
  (N.eqb (code c) 32 || N.eqb (code c) 9 || N.eqb (code c) 10 || N.eqb (code c) 13)%bool.

Definition is_digit (c : ascii) : bool := in_range 48 57 c.

Fixpoint skip_ws (s : string) : string :=
  match s with
  | String c s' => if json_space c then skip_ws s' else s
  | EmptyString => EmptyString
  end.

Fixpoint digits_value (acc : Z) (s : string) : Z :=
  match s with
  | EmptyString => acc
  | String c s' => digits_value (10 * acc + Z.of_N (code c) - 48)%Z s'
  end.

(** The characters up to the closing quote; nothing if a backslash or a
    control character comes first. *)
Fixpoint string_body (s : string) : option (string * string) :=
  match s with
  | EmptyString => None
  | String c s' =>
      if Ascii.eqb c quote then Some (EmptyString, s')
      else if (Ascii.eqb c "\" || N.ltb (code c) 32)%bool then None
      else match string_body s' with
           | Some (body, rest) => Some (String c body, rest)
           | None => None
           end
  end.

Definition number (negative : bool) (s : string) : option (pyval * string) :=
  match span is_digit s with
  | (EmptyString, _) => None
  | (digits, rest) =>
      let leading_zero :=
        match digits with
        | String "0" (String _ _) => true
        | _ => false
        end in
      let fractional :=
        match rest with
        | String c _ => (Ascii.eqb c "." || Ascii.eqb c "e" || Ascii.eqb c "E")%bool
        | EmptyString => false
        end in
      if (leading_zero || fractional)%bool then None
      else
        let n := digits_value 0 digits in
        Some (PyInt (if negative then (- n)%Z else n), rest)
  end.

(** Assignment into a dict: a repeated key keeps its place and takes the
    new value. *)
Fixpoint dict_set (entries : list (string * pyval)) (key : string) (v : pyval)
  : list (string * pyval) :=
  match entries with
  | [] => [(key, v)]
  | (k, x) :: rest =>
      if String.eqb k key then (k, v) :: rest else (k, x) :: dict_set rest key v
  end.

Fixpoint value (fuel : nat) (s : string) : option (pyval * string) :=
  match fuel with
  | O => None
  | S fuel' =>
      match skip_ws s with
      | String "n" (String "u" (String "l" (String "l" rest))) => Some (PyNone, rest)
      | String "t" (String "r" (String "u" (String "e" rest))) => Some (PyBool true, rest)
      | String "f" (String "a" (String "l" (String "s" (String "e" rest)))) =>
          Some (PyBool false, rest)
      | String "[" rest =>
          match skip_ws rest with
          | String "]" rest' => Some (PyList [], rest')
          | _ => items fuel' [] rest
          end
      | String "{" rest =>
          match skip_ws rest with
          | String "}" rest' => Some (PyDict [], rest')
          | _ => members fuel' [] rest
          end
      | String "-" rest => number true rest
      | String c rest =>
          if Ascii.eqb c quote then
            match string_body rest with
            | Some (body, rest') => Some (PyStr body, rest')
            | None => None
            end
          else number false (String c rest)
      | EmptyString => None
      end
  end

with items (fuel : nat) (acc : list pyval) (s : string) : option (pyval * string) :=
  match fuel with
  | O => None
  | S fuel' =>
      match value fuel' s with
      | Some (v, rest) =>
          match skip_ws rest with
          | String "," rest' => items fuel' (acc ++ [v]) rest'
          | String "]" rest' => Some (PyList (acc ++ [v]), rest')
          | _ => None
          end
      | None => None
      end
  end

with members (fuel : nat) (acc : list (string * pyval)) (s : string)
  : option (pyval * string) :=
  match fuel with
  | O => None
  | S fuel' =>
      match skip_ws s with
      | String c rest =>
          if Ascii.eqb c quote then
            match string_body rest with
            | Some (key, rest1) =>
                match skip_ws rest1 with
                | String ":" rest2 =>
                    match value fuel' rest2 with
                    | Some (v, rest3) =>
                        match skip_ws rest3 with
                        | String "," rest4 => members fuel' (dict_set acc key v) rest4
                        | String "}" rest4 => Some (PyDict (dict_set acc key v), rest4)
                        | _ => None
                        end
                    | None => None
                    end
                | _ => None
                end
            | None => None
            end
          else None
      | EmptyString => None
      end
  end.

Definition json_loads (s : string) : result pyval :=
  match value (2 * String.length s + 2) s with
  | Some (v, rest) =>
      if str_is_empty (skip_ws rest) then Ok v else Raise JSONDecodeError
  | None => Raise JSONDecodeError
  end.

(** A text between double quotes, and the two wire shapes of a fragment. *)
Definition quoted (s : string) : string :=
  (String quote s ++ String quote EmptyString)%string.

Definition chat_line (s : string) : string :=
  ("data: {" ++ quoted "choices" ++ ":[{" ++ quoted "delta" ++ ":{"
     ++ quoted "content" ++ ":" ++ quoted s ++ "}}]}")%string.

Definition completion_line (s : string) : string :=
  ("data: {" ++ quoted "choices" ++ ":[{" ++ quoted "text" ++ ":"
     ++ quoted s ++ "}]}")%string.

(** The first chunk of a chat stream: a delta with a role and no content. *)
Definition role_line : string :=
  ("data: {" ++ quoted "choices" ++ ":[{" ++ quoted "delta" ++ ":{"
     ++ quoted "role" ++ ":" ++ quoted "assistant" ++ "}}]}")%string.

(** A chat response body with a usage report of [total] tokens. *)
Definition usage_body (content : string) (total : string) : string :=
  ("{" ++ quoted "choices" ++ ":[{" ++ quoted "message" ++ ":{"
     ++ quoted "content" ++ ":" ++ quoted content ++ "}}], "
     ++ quoted "usage" ++ ":{" ++ quoted "total_tokens" ++ ":" ++ total ++ "}}")%string.

(** A chat chunk whose content is the JSON text [v], not put in quotes. *)
Definition content_line (v : string) : string :=
  ("data: {" ++ quoted "choices" ++ ":[{" ++ quoted "delta" ++ ":{"
     ++ quoted "content" ++ ":" ++ v ++ "}}]}")%string.

(** An environment without [tiktoken]. *)
Definition no_tiktoken : tiktoken_module :=
  {| TIKTOKEN_AVAILABLE := false;
     encoding := unit;
     encoding_for_model := fun _ => Raise (LibraryError "tiktoken");
     get_encoding := fun _ => Raise (LibraryError "tiktoken");
     encode := fun _ _ => Raise (LibraryError "tiktoken") |}.

(** An environment whose tokenizer knows the default encoding only and
    emits one token per character of a str. *)
Definition char_tiktoken : tiktoken_module :=
  {| TIKTOKEN_AVAILABLE := true;
     encoding := string;
     encoding_for_model := fun _ => Raise KeyError;
     get_encoding := fun name =>
       if String.eqb name "cl100k_base" then Ok name else Raise (LibraryError name);
     encode := fun _ text =>
       match text with
       | PyStr s => Ok (map (fun c => Z.of_N (code c)) (list_ascii_of_string s))
       | _ => Raise TypeError
       end |}.

(** An environment whose tokenizer is installed and fails on every call. *)
Definition failing_tiktoken : tiktoken_module :=
  {| TIKTOKEN_AVAILABLE := true;
     encoding := unit;
     encoding_for_model := fun _ => Raise KeyError;
     get_encoding := fun _ => Ok tt;
     encode := fun _ _ => Raise (LibraryError "encode") |}.

(** Floats with an integer value, for clock readings in whole seconds. *)
Definition seconds (n : Z) : float := binary_normalize prec emax n 0 false.

(** A clock that advances by one second per reading, from 1000, and stops
    at 1003. *)
Definition ticking (n : nat) : float :=
  match n with
  | 0 => seconds 1000
  | 1 => seconds 1001
  | 2 => seconds 1002
  | _ => seconds 1003
  end.

(** A clock whose second reading comes 2^-23 seconds (about 0.12
    microseconds) after the first. *)
Definition quick (n : nat) : float :=
  match n with
  | 0 => seconds 1000
  | _ => binary_normalize prec emax 8388608001 (-23) false
  end.

(** A clock that stands still. *)
Definition frozen (n : nat) : float := seconds 1000.

End Plain.

(** ** The heuristic in the words of its description

    A maximal run of word characters begins at a word character that does
    not follow another one, so counting the runs is counting those
    beginnings; [inside] tells whether the previous character was a word
    character. *)

Fixpoint count_runs (p : ascii -> bool) (inside : bool) (s : string) : nat :=
  match s with
  | EmptyString => 0
  | String c s' =>
      (if (p c && negb inside)%bool then 1 else 0) + count_runs p (p c) s'
  end.

(** The number of characters of [s] in the class [p]. *)
Fixpoint count_chars (p : ascii -> bool) (s : string) : nat :=
  match s with
  | EmptyString => 0
  | String c s' => (if p c then 1 else 0) + count_chars p s'
  end.

(** Runs of alphanumeric or underscore characters, plus the single
    characters that are neither whitespace nor in such a run. *)
Definition described_count (s : string) : nat :=
  count_runs re_word false s + count_chars re_punct s.

(** Whether [s] has a character that is not whitespace. *)
Fixpoint has_visible (s : string) : bool :=
  match s with
  | EmptyString => false
  | String c s' => (negb (py_isspace c) || has_visible s')%bool
  end.

(** ** The fragments of a stream, line by line

    What one line contributes, independently of the state of the loop. *)

Inductive line_event : Type :=
| Skipped
| Sentinel
| Fragment (piece : pyval).

Section Events.

Variable json_loads : string -> result pyval.

Definition line_event_of (raw : option string) : line_event :=
  match raw with
  | None => Skipped
  | Some raw =>
      let line := strip raw in
      if str_is_empty line then Skipped
      else
        let payload_text := payload_of line in
        if String.eqb payload_text "[DONE]" then Sentinel
        else
          let piece :=
            match json_loads payload_text with
            | Raise _ => PyStr payload_text
            | Ok obj => text_piece_of obj
            end in
          if truthy piece then Fragment piece else Skipped
  end.

(** The non-empty fragments in arrival order, up to the sentinel. *)
Fixpoint fragments (lines : list (option string)) : list pyval :=
  match lines with
  | [] => []
  | raw :: rest =>
      match line_event_of raw with
      | Skipped => fragments rest
      | Sentinel => []
      | Fragment piece => piece :: fragments rest
      end
  end.

(** A line that reaches the decoder with [payload] and is decoded as [obj]. *)
Definition decodes_to (raw payload : string) (obj : pyval) : Prop :=
  str_is_empty (strip raw) = false
  /\ payload = payload_of (strip raw)
  /\ String.eqb payload "[DONE]" = false
  /\ json_loads payload = Ok obj.

(** A line that reaches the decoder with [payload] and is rejected. *)
Definition undecodable (raw payload : string) : Prop :=
  str_is_empty (strip raw) = false
  /\ payload = payload_of (strip raw)
  /\ String.eqb payload "[DONE]" = false
  /\ exists e, json_loads payload = Raise e.

End Events.

(** Both stamps of a state are readings of the clock. *)
Definition stamped (clock : nat -> float) (st : stream_state) : Prop :=
  (forall t, first_token_time st = Some t -> exists i, t = clock i)
  /\ (forall t, last_token_time st = Some t -> exists i, t = clock i).

(** The response [{"choices":[{"message":{"content":"hi"}}],
    "usage":{"total_tokens":7}}], decoded. *)
Definition usage_example : pyval :=
  PyDict [("choices", PyList [PyDict [("message", PyDict [("content", PyStr "hi")])]]);
          ("usage", PyDict [("total_tokens", PyInt 7)])].

(** The two wire shapes of a fragment, as decoded objects. *)
Definition completion_object (s : string) : pyval :=
  PyDict [("choices", PyList [PyDict [("text", PyStr s)]])].

Definition chat_object (s : string) : pyval :=
  PyDict [("choices", PyList [PyDict [("delta", PyDict [("content", PyStr s)])]])].

(** Whether a decoded chunk is an object whose choices are a list that
    begins with an object. *)
Definition first_choice_object (obj : pyval) : bool :=
  match obj with
  | PyDict entries =>
      match dict_lookup "choices" entries with
      | Some (PyList (PyDict _ :: _)) => true
      | _ => false
      end
  | _ => false
  end.

(** Whether the loop meets the sentinel on these lines. *)
Fixpoint sentinel_reached (json_loads : string -> result pyval)
         (lines : list (option string)) : bool :=
  match lines with
  | [] => false
  | raw :: rest =>
      match line_event_of json_loads raw with
      | Sentinel => true
      | _ => sentinel_reached json_loads rest
      end
  end.

(** ** [build_url] and [main] *)

(** [str(n)] for an int, as an f-string renders it. *)
Definition str_of_int (n : Z) : string :=
  DecimalString.NilZero.string_of_int (Z.to_int n).

(** Line 46. *)
Definition build_url (host : string) (port : Z) (endpoint : string) : string :=
  ("http://" ++ host ++ ":" ++ str_of_int port ++ "/v1/" ++ endpoint)%string.

(** The arguments of a call of [requests.post]. *)
Record request : Type := {
  req_url : string;
  req_headers : list (string * string);
  req_json : pyval;
  req_stream : bool;
  req_timeout : Z
}.

(** The namespace that [parser.parse_args()] returns. *)
Module Args.

Record t : Type := {
  host : string;
  port : Z;
  api_key : string;
  model : string;
  prompt : string;
  endpoint : string;
  stream : bool;
  max_tokens : Z
}.

End Args.

(** Lines 177-180. *)
Definition build_headers (api_key : string) : list (string * string) :=
  [("Authorization", ("Bearer " ++ api_key)%string);
   ("Content-Type", "application/json")].

(** Lines 183-196. *)
Definition build_payload (a : Args.t) : pyval :=
  if String.eqb (Args.endpoint a) "chat/completions" then
    PyDict [("model", PyStr (Args.model a));
            ("messages", PyList [PyDict [("role", PyStr "user");
                                         ("content", PyStr (Args.prompt a))]]);
            ("stream", PyBool (Args.stream a));
            ("max_tokens", PyInt (Args.max_tokens a))]
  else
    PyDict [("model", PyStr (Args.model a));
            ("prompt", PyStr (Args.prompt a));
            ("stream", PyBool (Args.stream a));
            ("max_tokens", PyInt (Args.max_tokens a))].

(** The request that [main] has its runner send (lines 51 and 86). *)
Definition main_request (a : Args.t) : request :=
  {| req_url := build_url (Args.host a) (Args.port a) (Args.endpoint a);
     req_headers := build_headers (Args.api_key a);
     req_json := build_payload a;
     req_stream := Args.stream a;
     req_timeout := if Args.stream a then 300%Z else 120%Z |}.

Section Driver.

Variable tiktoken : tiktoken_module.
Variable clock : nat -> float.
Variable json_loads : string -> result pyval.
(** [requests.post]: what sending a request results in. *)
Variable requests_post : request -> result response.

(** Lines 169-202, after the arguments are parsed. *)
Definition main (a : Args.t) : result report :=
  let url := build_url (Args.host a) (Args.port a) (Args.endpoint a) in
  let headers := build_headers (Args.api_key a) in
  let payload := build_payload a in
  if Args.stream a then
    run_streaming tiktoken clock json_loads
      (requests_post {| req_url := url; req_headers := headers; req_json := payload;
                        req_stream := true; req_timeout := 300 |})
      (Args.model a)
  else
    run_non_streaming tiktoken clock
      (requests_post {| req_url := url; req_headers := headers; req_json := payload;
                        req_stream := false; req_timeout := 120 |})
      (Args.model a).

End Driver.

(** A server for the worked examples: it answers a streaming request with
    two chat chunks and the sentinel, and a buffered request with a chat
    body that reports 7 tokens; it refuses every URL but the local one. *)
Definition local_server (req : request) : result response :=
  if negb (startswith (req_url req) "http://127.0.0.1:8080/v1/") then Raise HTTPError
  else if req_stream req then
    Ok {| raise_for_status := Ok tt;
          json := Raise JSONDecodeError;
          iter_lines := [Some (Plain.chat_line "Hello");
                         Some (Plain.chat_line " world");
                         Some "data: [DONE]"] |}
  else
    Ok {| raise_for_status := Ok tt;
          json := Plain.json_loads (Plain.usage_body "hi" "7");
          iter_lines := [] |}.

(** The command line [--api-key k --model m --prompt Hi], with or without
    [--stream], and the defaults of the other flags. *)
Definition default_args (streaming : bool) : Args.t :=
  {| Args.host := "127.0.0.1"; Args.port := 8080; Args.api_key := "k";
     Args.model := "m"; Args.prompt := "Hi";
     Args.endpoint := "chat/completions"; Args.stream := streaming;
     Args.max_tokens := 512 |}.

(** * Properties *)

(** ** Strings and the scanner *)

Lemma append_empty_r (s : string) : (s ++ "")%string = s.
Proof.
  induction s as [|c s IH]; simpl; [reflexivity | now rewrite IH].
Qed.

Lemma append_assoc (a b c : string) : ((a ++ b) ++ c)%string = (a ++ b ++ c)%string.
Proof.
  induction a as [|x a IH]; simpl; [reflexivity | now rewrite IH].
Qed.

Lemma span_length (p : ascii -> bool) (s : string) :
  String.length (snd (span p s)) <= String.length s.
Proof.
  induction s as [|c s IH]; simpl; [lia|].
  destruct (p c); simpl; [|lia].
  destruct (span p s) as [run rest]; simpl in *; lia.
Qed.

Lemma span_head (p : ascii -> bool) (c : ascii) (s : string) :
  p c = true ->
  span p (String c s) = (String c (fst (span p s)), snd (span p s)).
Proof.
  intros Hc; simpl; rewrite Hc.
  now destruct (span p s).
Qed.

Lemma span_stop (p : ascii -> bool) (c : ascii) (s : string) :
  p c = false -> span p (String c s) = (EmptyString, String c s).
Proof.
  intros Hc; simpl; now rewrite Hc.
Qed.

(** Every successful match consumes at least one character. *)
Lemma match_here_consumes (r : regex) (s m rest : string) :
  match_here r s = Some (m, rest) -> String.length rest < String.length s.
Proof.
  revert s m rest; induction r as [p|p|r1 IH1 r2 IH2]; intros s m rest; simpl.
  - destruct s as [|c s]; [discriminate|].
    destruct (p c); [|discriminate].
    intros H; inversion H; subst; simpl; lia.
  - destruct s as [|c s]; simpl; [discriminate|].
    destruct (p c) eqn:Hc; [|discriminate].
    pose proof (span_length p s) as Hlen.
    destruct (span p s) as [run rest']; simpl in *.
    intros H; inversion H; subst; lia.
  - destruct (match_here r1 s) as [[m1 rest1]|] eqn:H1.
    + intros H; inversion H; subst; eauto.
    + eauto.
Qed.

(** More fuel than the length of the text changes nothing. *)
Lemma findall_from_enough (r : regex) (n : nat) (s : string) :
  String.length s <= n -> findall_from n r s = findall r s.
Proof.
  unfold findall.
  remember (String.length s) as k eqn:Hk.
  revert n s Hk; induction k as [k IH] using lt_wf_ind; intros n s Hk Hn.
  destruct n as [|n].
  - assert (k = 0) by lia; subst k.
    destruct s; [reflexivity | discriminate].
  - destruct k as [|k].
    + destruct s; [|discriminate]; simpl.
      destruct (match_here r "") as [[m rest]|] eqn:Hm; [|reflexivity].
      apply match_here_consumes in Hm; simpl in Hm; lia.
    + simpl.
      destruct (match_here r s) as [[m rest]|] eqn:Hm.
      * pose proof (match_here_consumes _ _ _ _ Hm) as Hlt.
        f_equal.
        rewrite (IH (String.length rest)) with (n := n) by lia.
        rewrite (IH (String.length rest)) with (n := k) (s := rest) by lia.
        reflexivity.
      * destruct s as [|c s]; [reflexivity|].
        simpl in Hk.
        rewrite (IH (String.length s)) with (n := n) by lia.
        rewrite (IH (String.length s)) with (n := k) (s := s) by lia.
        reflexivity.
Qed.

(** The scanner, unfolded once. *)
Lemma findall_step (r : regex) (s : string) :
  findall r s =
  match match_here r s with
  | Some (m, rest) => m :: findall r rest
  | None =>
      match s with
      | EmptyString => []
      | String _ s' => findall r s'
      end
  end.
Proof.
  destruct s as [|c s].
  - unfold findall; simpl.
    destruct (match_here r "") as [[m rest]|] eqn:Hm; [|reflexivity].
    apply match_here_consumes in Hm; simpl in Hm; lia.
  - unfold findall at 1; simpl String.length; simpl findall_from.
    destruct (match_here r (String c s)) as [[m rest]|] eqn:Hm.
    + apply match_here_consumes in Hm; simpl in Hm.
      rewrite findall_from_enough by lia; reflexivity.
    + reflexivity.
Qed.

(** ** The heuristic count (C3) *)

Lemma match_word (c : ascii) (s : string) :
  re_word c = true ->
  match_here token_pattern (String c s) =
  Some (String c (fst (span re_word s)), snd (span re_word s)).
Proof.
  intros Hc; unfold token_pattern.
  cbn [match_here]; rewrite (span_head _ _ _ Hc); reflexivity.
Qed.

Lemma match_other (c : ascii) (s : string) :
  re_word c = false ->
  match_here token_pattern (String c s) =
  if re_punct c then Some (String c EmptyString, s) else None.
Proof.
  intros Hc; unfold token_pattern.
  cbn [match_here]; rewrite (span_stop _ _ _ Hc); reflexivity.
Qed.

(** Behind a run the count of runs starts afresh. *)
Lemma count_runs_after_span (p : ascii -> bool) (s : string) :
  count_runs p true s = count_runs p false (snd (span p s)).
Proof.
  induction s as [|c s IH]; simpl; [reflexivity|].
  destruct (p c) eqn:Hc; simpl.
  - rewrite IH; now destruct (span p s).
  - now rewrite Hc.
Qed.

(** A run of word characters holds no punctuation. *)
Lemma count_punct_after_span (s : string) :
  count_chars re_punct s = count_chars re_punct (snd (span re_word s)).
Proof.
  induction s as [|c s IH]; simpl; [reflexivity|].
  destruct (re_word c) eqn:Hc; simpl.
  - unfold re_punct at 1; rewrite Hc, orb_true_r; simpl.
    rewrite IH; now destruct (span re_word s).
  - reflexivity.
Qed.

Lemma findall_described (s : string) :
  List.length (findall token_pattern s) = described_count s.
Proof.
  unfold described_count.
  remember (String.length s) as k eqn:Hk.
  revert s Hk; induction k as [k IH] using lt_wf_ind; intros s Hk.
  rewrite findall_step.
  destruct s as [|c s].
  - reflexivity.
  - simpl in Hk.
    destruct (re_word c) eqn:Hc.
    + rewrite (match_word _ _ Hc); cbn [List.length count_runs count_chars].
      pose proof (span_length re_word s) as Hlen.
      rewrite (IH (String.length (snd (span re_word s)))) by (lia || reflexivity).
      rewrite Hc; cbn [andb negb].
      rewrite (count_runs_after_span re_word s).
      rewrite (count_punct_after_span s).
      unfold re_punct at 2; rewrite Hc, orb_true_r; simpl; lia.
    + rewrite (match_other _ _ Hc); cbn [count_runs count_chars].
      rewrite Hc; cbn [andb].
      destruct (re_punct c); cbn [List.length];
        rewrite (IH (String.length s)) by (lia || reflexivity); lia.
Qed.

Lemma visible_counted (s : string) (inside : bool) :
  has_visible s = true ->
  1 <= (if inside then 1 else 0) + count_runs re_word inside s + count_chars re_punct s.
Proof.
  revert inside; induction s as [|c s IH]; intros inside; simpl; [discriminate|].
  intros Hv.
  destruct (re_word c) eqn:Hw; simpl.
  - destruct inside; simpl; lia.
  - destruct (py_isspace c) eqn:Hs; simpl in Hv.
    + specialize (IH false Hv); simpl in IH; lia.
    + unfold re_punct at 1; rewrite Hw, Hs; simpl; lia.
Qed.

(** C3 (as amended): on every text the heuristic returns the number of
    maximal runs of alphanumeric or underscore characters plus the number
    of single characters that are neither whitespace nor part of such a
    run; the count is at least 1 as soon as the text has one character that
    is not whitespace. *)
Theorem heuristic_count_described (s : string) :
  heuristic_count (PyStr s) = Ok (Z.of_nat (described_count s))
  /\ (has_visible s = true -> 1 <= described_count s).
Proof.
  split.
  - unfold heuristic_count; now rewrite findall_described.
  - intros Hv; unfold described_count.
    pose proof (visible_counted s false Hv) as H; simpl in H; exact H.
Qed.

Lemma heuristic_count_described_witness :
  has_visible "Hello, wor_ld!" = true
  /\ heuristic_count (PyStr "Hello, wor_ld!") = Ok 4%Z
  /\ 1 <= described_count "Hello, wor_ld!".
Proof.
  split; [reflexivity|].
  destruct (heuristic_count_described "Hello, wor_ld!") as [Heq Hge].
  split; [exact Heq | apply Hge; reflexivity].
Defined.

(** An underscore belongs to the runs and is not counted a second time as
    a single character. *)
Lemma underscore_counted_once :
  heuristic_count (PyStr "snake_case") = Ok 1%Z
  /\ count_chars re_punct "snake_case" = 0.
Proof.
  split; reflexivity.
Qed.

(** C3 as stated fails: a text of one space is not empty, yet the heuristic
    counts no token in it. *)
Lemma heuristic_count_blank :
  " " <> EmptyString
  /\ heuristic_count (PyStr " ") = Ok 0%Z
  /\ ~ (forall s : string, s <> EmptyString ->
          exists n : Z, heuristic_count (PyStr s) = Ok n /\ (1 <= n)%Z).
Proof.
  split; [discriminate|].
  split; [reflexivity|].
  intros H.
  destruct (H " ") as [n [Hn Hge]]; [discriminate|].
  vm_compute in Hn; inversion Hn; subst; lia.
Qed.

(** ** The token counter (C9) *)

Lemma heuristic_count_nonneg (s : string) :
  exists n : Z, heuristic_count (PyStr s) = Ok n /\ (0 <= n)%Z.
Proof.
  eexists; split; [reflexivity | lia].
Qed.

Lemma tiktoken_count_nonneg (tk : tiktoken_module) (text : pyval)
      (model : option string) (n : Z) :
  tiktoken_count tk text model = Ok n -> (0 <= n)%Z.
Proof.
  unfold tiktoken_count, bind.
  destruct (resolve_encoding tk model) as [enc|e]; [|discriminate].
  destruct (encode tk enc text) as [ids|e]; [|discriminate].
  intros H; inversion H; lia.
Qed.

(** On a str the counter always returns, and never a negative number. *)
Lemma token_count_str (tk : tiktoken_module) (s : string) (model : option string) :
  exists n : Z, token_count tk (PyStr s) model = Ok n /\ (0 <= n)%Z.
Proof.
  unfold token_count.
  destruct (negb (truthy (PyStr s))); [exists 0%Z; split; [reflexivity | lia]|].
  destruct (TIKTOKEN_AVAILABLE tk); [|apply heuristic_count_nonneg].
  unfold try_except.
  destruct (tiktoken_count tk (PyStr s) model) as [n|e] eqn:Hn.
  - exists n; split; [reflexivity | eapply tiktoken_count_nonneg; eauto].
  - apply heuristic_count_nonneg.
Qed.

(** With a tokenizer that resolves and encodes, its count is the result. *)
Lemma token_count_encoded (tk : tiktoken_module) (s : string)
      (model : option string) (enc : encoding tk) (ids : list Z) :
  s <> EmptyString ->
  TIKTOKEN_AVAILABLE tk = true ->
  resolve_encoding tk model = Ok enc ->
  encode tk enc (PyStr s) = Ok ids ->
  token_count tk (PyStr s) model = Ok (Z.of_nat (List.length ids)).
Proof.
  intros Hs Hav Henc Hids.
  unfold token_count, tiktoken_count.
  destruct s as [|c s]; [congruence|]; cbn [truthy str_is_empty negb].
  rewrite Hav, Henc; cbn [bind]; rewrite Hids; reflexivity.
Qed.

(** C9: [token_count] on a str (or on [None]) never raises and returns a
    number that is not negative.  With [tiktoken] it returns the number of
    ids of the encoding of the model; when that encoding cannot be resolved
    it asks for the default encoding [cl100k_base] and returns the number of
    ids of that one.  Without [tiktoken], or when resolving the default
    encoding or encoding the text raises, the result is the heuristic
    count. *)
Theorem token_count_never_raises (tk : tiktoken_module) (s : string)
        (model : option string) :
  (exists n : Z, token_count tk (PyStr s) model = Ok n /\ (0 <= n)%Z)
  /\ token_count tk PyNone model = Ok 0%Z
  /\ (forall (m : string) (e : exn),
        str_is_empty m = false ->
        encoding_for_model tk m = Raise e ->
        resolve_encoding tk (Some m) = get_encoding tk "cl100k_base")
  /\ (s <> EmptyString ->
      TIKTOKEN_AVAILABLE tk = false ->
      token_count tk (PyStr s) model = heuristic_count (PyStr s))
  /\ (forall e : exn,
        s <> EmptyString ->
        tiktoken_count tk (PyStr s) model = Raise e ->
        token_count tk (PyStr s) model = heuristic_count (PyStr s))
  /\ (forall (m : string) (enc : encoding tk) (ids : list Z),
        s <> EmptyString ->
        TIKTOKEN_AVAILABLE tk = true ->
        str_is_empty m = false ->
        encoding_for_model tk m = Ok enc ->
        encode tk enc (PyStr s) = Ok ids ->
        token_count tk (PyStr s) (Some m) = Ok (Z.of_nat (List.length ids)))
  /\ (forall (m : string) (e : exn) (enc : encoding tk) (ids : list Z),
        s <> EmptyString ->
        TIKTOKEN_AVAILABLE tk = true ->
        str_is_empty m = false ->
        encoding_for_model tk m = Raise e ->
        get_encoding tk "cl100k_base" = Ok enc ->
        encode tk enc (PyStr s) = Ok ids ->
        token_count tk (PyStr s) (Some m) = Ok (Z.of_nat (List.length ids)))
  /\ (forall (m : string) (e e' : exn),
        s <> EmptyString ->
        str_is_empty m = false ->
        encoding_for_model tk m = Raise e ->
        get_encoding tk "cl100k_base" = Raise e' ->
        token_count tk (PyStr s) (Some m) = heuristic_count (PyStr s))
  /\ (forall (enc : encoding tk) (e : exn),
        s <> EmptyString ->
        resolve_encoding tk model = Ok enc ->
        encode tk enc (PyStr s) = Raise e ->
        token_count tk (PyStr s) model = heuristic_count (PyStr s)).
Proof.
  split; [apply token_count_str|].
  split; [reflexivity|].
  split.
  { intros m e Hm He; unfold resolve_encoding.
    rewrite Hm, He; reflexivity. }
  assert (Hs : s <> EmptyString -> negb (truthy (PyStr s)) = false).
  { destruct s; [congruence | reflexivity]. }
  assert (Hraise : forall (mdl : option string) (e : exn),
             s <> EmptyString ->
             tiktoken_count tk (PyStr s) mdl = Raise e ->
             token_count tk (PyStr s) mdl = heuristic_count (PyStr s)).
  { intros mdl e Hne Hr; unfold token_count.
    rewrite (Hs Hne), Hr.
    destruct (TIKTOKEN_AVAILABLE tk); reflexivity. }
  split.
  { intros Hne Hav; unfold token_count.
    rewrite (Hs Hne), Hav; reflexivity. }
  split; [intros e; apply Hraise|].
  split.
  { intros m enc ids Hne Hav Hm Henc Hids.
    apply token_count_encoded with (enc := enc); try assumption.
    unfold resolve_encoding; now rewrite Hm, Henc. }
  split.
  { intros m e enc ids Hne Hav Hm He Henc Hids.
    apply token_count_encoded with (enc := enc); try assumption.
    unfold resolve_encoding, default_encoding; now rewrite Hm, He. }
  split.
  { intros m e e' Hne Hm He He'.
    apply (Hraise (Some m) e' Hne).
    unfold tiktoken_count, resolve_encoding, default_encoding.
    now rewrite Hm, He, He'. }
  intros enc e Hne Henc Hids.
  apply (Hraise model e Hne).
  unfold tiktoken_count; rewrite Henc; cbn [bind]; now rewrite Hids.
Qed.

Lemma token_count_never_raises_witness :
  (exists n : Z, token_count Plain.char_tiktoken (PyStr "a, b") (Some "gpt-x") = Ok n
                 /\ (0 <= n)%Z)
  /\ resolve_encoding Plain.char_tiktoken (Some "gpt-x") = Ok "cl100k_base"
  /\ token_count Plain.no_tiktoken (PyStr "a, b") (Some "gpt-x") = Ok 3%Z
  /\ token_count Plain.failing_tiktoken (PyStr "a, b") (Some "gpt-x") = Ok 3%Z
  /\ token_count Plain.char_tiktoken (PyStr "a, b") (Some "gpt-x") = Ok 4%Z.
Proof.
  destruct (token_count_never_raises Plain.char_tiktoken "a, b" (Some "gpt-x"))
    as [Htotal [_ [Hresolve [_ [_ [_ [Hdefault _]]]]]]].
  destruct (token_count_never_raises Plain.no_tiktoken "a, b" (Some "gpt-x"))
    as [_ [_ [_ [Habsent _]]]].
  destruct (token_count_never_raises Plain.failing_tiktoken "a, b" (Some "gpt-x"))
    as [_ [_ [_ [_ [Hfails _]]]]].
  split; [exact Htotal|].
  split.
  - rewrite (Hresolve "gpt-x" KeyError); reflexivity.
  - split; [|split].
    + rewrite Habsent; [reflexivity | discriminate | reflexivity].
    + rewrite (Hfails (LibraryError "encode")); [reflexivity | discriminate | reflexivity].
    + refine (Hdefault "gpt-x" KeyError "cl100k_base" [97; 44; 32; 98]%Z
                _ eq_refl eq_refl eq_refl eq_refl eq_refl).
      discriminate.
Defined.

(** ** Floats *)

Lemma fsub_diag (t : float) : float_is_finite t = true -> fsub t t = fzero.
Proof.
  destruct t as [s|s| |s m e]; simpl; try discriminate; intros _.
  - destruct s; reflexivity.
  - unfold fsub, SFsub.
    rewrite Z.sub_diag; reflexivity.
Qed.

Lemma zero_not_positive (x : float) : feqb x fzero = true -> fltb fzero x = false.
Proof.
  destruct x as [s|s| |s m e]; simpl; try reflexivity.
  - destruct s; discriminate.
  - unfold feqb, SFeqb; simpl; destruct s; discriminate.
Qed.

(** The throughput is the quotient on a positive span and infinite on a
    span of zero. *)
Lemma throughput_cases (num_tokens : pyval) (elapsed tps : float) :
  throughput num_tokens elapsed = Ok tps ->
  (fltb fzero elapsed = true -> py_truediv num_tokens elapsed = Ok tps)
  /\ (feqb elapsed fzero = true -> tps = finf).
Proof.
  unfold throughput; intros H; split.
  - intros Hpos; now rewrite Hpos in H.
  - intros Hz; rewrite (zero_not_positive _ Hz) in H; now inversion H.
Qed.

(** ** The loop of the stream consumer *)

Lemma py_join_app (xs ys : list pyval) :
  py_join (xs ++ ys) =
  (a <- py_join xs ;; b <- py_join ys ;; Ok (a ++ b)%string).
Proof.
  induction xs as [|x xs IH]; simpl.
  - destruct (py_join ys); reflexivity.
  - destruct x; try reflexivity.
    rewrite IH; unfold bind.
    destruct (py_join xs) as [a|e]; [|reflexivity].
    destruct (py_join ys) as [b|e]; [|reflexivity].
    now rewrite append_assoc.
Qed.



Section Loop.

Variable clock : nat -> float.
Variable json_loads : string -> result pyval.

(** One iteration does what the event of its line says. *)
Lemma process_line_event (st : stream_state) (raw : option string) :
  process_line clock json_loads st raw =
  match line_event_of json_loads raw with
  | Skipped => (st, Continue)
  | Sentinel => (record_done clock st, Break)
  | Fragment piece => (record_fragment clock st piece, Continue)
  end.
Proof.
  destruct raw as [raw|]; [|reflexivity].
  unfold process_line, line_event_of.
  destruct (str_is_empty (strip raw)); [reflexivity|].
  destruct (String.eqb (payload_of (strip raw)) "[DONE]"); [reflexivity|].
  destruct (json_loads (payload_of (strip raw))) as [obj|e].
  - destruct (truthy (text_piece_of obj)); reflexivity.
  - cbn [truthy]; destruct (negb (str_is_empty (payload_of (strip raw)))); reflexivity.
Qed.

(** The accumulator grows by the fragments of the lines, in their order. *)
Lemma consume_lines_chunks (lines : list (option string)) (st : stream_state) :
  chunks (consume_lines clock json_loads st lines) = chunks st ++ fragments json_loads lines.
Proof.
  revert st; induction lines as [|raw rest IH]; intros st; simpl.
  - now rewrite app_nil_r.
  - rewrite process_line_event.
    destruct (line_event_of json_loads raw) as [| |piece].
    + apply IH.
    + simpl; now rewrite app_nil_r.
    + rewrite IH; simpl; now rewrite <- app_assoc.
Qed.

(** The first stamp is taken with the first fragment and then kept. *)
Lemma consume_lines_first (lines : list (option string)) (st : stream_state) :
  first_token_time (consume_lines clock json_loads st lines) =
  match first_token_time st with
  | Some t => Some t
  | None =>
      match fragments json_loads lines with
      | [] => None
      | _ :: _ => Some (clock (ticks st))
      end
  end.
Proof.
  revert st; induction lines as [|raw rest IH]; intros st; simpl.
  - now destruct (first_token_time st).
  - rewrite process_line_event.
    destruct (line_event_of json_loads raw) as [| |piece].
    + apply IH.
    + simpl; now destruct (first_token_time st).
    + rewrite IH; simpl; now destruct (first_token_time st).
Qed.

Lemma consume_lines_stamped (lines : list (option string)) (st : stream_state) :
  stamped clock st -> stamped clock (consume_lines clock json_loads st lines).
Proof.
  revert st; induction lines as [|raw rest IH]; intros st Hst; simpl; [exact Hst|].
  rewrite process_line_event.
  destruct Hst as [Hfirst Hlast].
  destruct (line_event_of json_loads raw) as [| |piece].
  - apply IH; split; assumption.
  - split; simpl; [exact Hfirst|].
    intros t Ht; inversion Ht; eauto.
  - apply IH; split; simpl.
    + destruct (first_token_time st) as [t0|]; intros t Ht; inversion Ht; subst; eauto.
    + intros t Ht; inversion Ht; eauto.
Qed.

Lemma initial_stamped : stamped clock initial_state.
Proof.
  split; intros t Ht; discriminate.
Qed.

End Loop.

(** ** Elapsed time (C1) *)

(** With stamps that are true values, the test of line 144 only asks
    whether both are set. *)
Lemma elapsed_of_stamped (clock : nat -> float) (st : stream_state) :
  (forall n, float_truthy (clock n) = true) ->
  stamped clock st ->
  elapsed_of st =
  match first_token_time st, last_token_time st with
  | Some first, Some last => fsub last first
  | _, _ => fzero
  end.
Proof.
  intros Hclock [Hfirst Hlast]; unfold elapsed_of.
  destruct (first_token_time st) as [first|]; [|reflexivity].
  destruct (last_token_time st) as [last|]; [|reflexivity].
  destruct (Hfirst first eq_refl) as [i ->].
  destruct (Hlast last eq_refl) as [j ->].
  now rewrite !Hclock.
Qed.

(** The boundary of that test: a first stamp of exactly 0.0 is taken for an
    unset one. *)
Lemma zero_reading_taken_for_unset :
  elapsed_of {| first_token_time := Some fzero;
                last_token_time := Some (Plain.seconds 5);
                chunks := [PyStr "a"; PyStr "b"];
                ticks := 2 |} = fzero.
Proof.
  reflexivity.
Qed.

(** C1: on a clock whose readings are not zero (any time after the epoch),
    the elapsed time that the consumer returns is the last stamp minus the
    first one when both are set and 0.0 when one of them is not; the latter
    holds in particular for a stream without any non-empty fragment. *)
Theorem consume_elapsed (clock : nat -> float) (json_loads : string -> result pyval)
        (lines : list (option string)) (text : string) (elapsed : float) :
  (forall n, float_truthy (clock n) = true) ->
  consume clock json_loads lines = Ok (text, elapsed) ->
  let st := consume_lines clock json_loads initial_state lines in
  (forall first last,
      first_token_time st = Some first ->
      last_token_time st = Some last ->
      elapsed = fsub last first)
  /\ (first_token_time st = None \/ last_token_time st = None -> elapsed = fzero)
  /\ (fragments json_loads lines = [] -> elapsed = fzero).
Proof.
  intros Hclock Hrun st.
  assert (Hel : elapsed = elapsed_of st).
  { unfold consume, bind in Hrun; fold st in Hrun.
    destruct (py_join (chunks st)); [|discriminate].
    now inversion Hrun. }
  assert (Hst : stamped clock st).
  { apply consume_lines_stamped, initial_stamped. }
  rewrite (elapsed_of_stamped clock st Hclock Hst) in Hel.
  split; [|split].
  - intros first last Hf Hl; now rewrite Hf, Hl in Hel.
  - intros [Hf|Hl].
    + now rewrite Hf in Hel.
    + rewrite Hl in Hel; now destruct (first_token_time st).
  - intros Hnone.
    assert (Hf : first_token_time st = None).
    { unfold st; rewrite consume_lines_first, Hnone; reflexivity. }
    now rewrite Hf in Hel.
Qed.

Lemma consume_elapsed_witness :
  (forall n, float_truthy (Plain.ticking n) = true)
  /\ consume Plain.ticking Plain.json_loads
             [Some (Plain.chat_line "Hello"); Some (Plain.completion_line " world");
              Some "data: [DONE]"]
     = Ok ("Hello world", Plain.seconds 2)
  /\ Plain.seconds 2 = fsub (Plain.ticking 2) (Plain.ticking 0).
Proof.
  assert (Hclock : forall n, float_truthy (Plain.ticking n) = true).
  { intros n; destruct n as [|[|[|n]]]; reflexivity. }
  split; [exact Hclock|].
  split; [reflexivity|].
  exact (proj1 (consume_elapsed Plain.ticking Plain.json_loads
                  [Some (Plain.chat_line "Hello");
                   Some (Plain.completion_line " world");
                   Some "data: [DONE]"]
                  "Hello world" (Plain.seconds 2) Hclock eq_refl)
               (Plain.ticking 0) (Plain.ticking 2) eq_refl eq_refl).
Defined.

(** ** Tokens per second (C2) *)

Lemma sentinel_line_event (json_loads : string -> result pyval) :
  line_event_of json_loads (Some "data: [DONE]") = Sentinel.
Proof.
  reflexivity.
Qed.

Lemma fragment_line_event (json_loads : string -> result pyval)
      (raw payload : string) (obj : pyval) :
  decodes_to json_loads raw payload obj ->
  line_event_of json_loads (Some raw) =
  if truthy (text_piece_of obj) then Fragment (text_piece_of obj) else Skipped.
Proof.
  intros [Hline [Hpay [Hdone Hobj]]]; subst payload.
  unfold line_event_of.
  now rewrite Hline, Hdone, Hobj.
Qed.

Lemma measure_non_streaming_throughput (tk : tiktoken_module) (clock : nat -> float)
      (post : result response) (model : string) (m : report) :
  measure_non_streaming tk clock post model = Ok m ->
  throughput (tokens m) (elapsed_seconds m) = Ok (tokens_per_second m).
Proof.
  unfold measure_non_streaming, bind.
  destruct post as [resp|e]; [|discriminate].
  destruct (raise_for_status resp); [|discriminate].
  destruct (json resp) as [data|e]; [|discriminate].
  destruct (response_locals data) as [locals|e]; [|discriminate].
  destruct (count_tokens tk (snd locals) (fst locals) model) as [n|e]; [|discriminate].
  destruct (throughput n (fsub (clock 1) (clock 0))) as [tps|e] eqn:Ht; [|discriminate].
  intros H; inversion H; subst; exact Ht.
Qed.

Lemma measure_streaming_throughput (tk : tiktoken_module) (clock : nat -> float)
      (json_loads : string -> result pyval)
      (post : result response) (model : string) (m : report) :
  measure_streaming tk clock json_loads post model = Ok m ->
  throughput (tokens m) (elapsed_seconds m) = Ok (tokens_per_second m).
Proof.
  unfold measure_streaming, bind.
  destruct post as [resp|e]; [|discriminate].
  destruct (raise_for_status resp); [|discriminate].
  destruct (consume clock json_loads (iter_lines resp)) as [[text elapsed]|e];
    [|discriminate].
  destruct (token_count tk (PyStr (fst (text, elapsed))) (Some model)) as [n|e];
    [|discriminate].
  destruct (throughput (PyInt n) (snd (text, elapsed))) as [tps|e] eqn:Ht;
    [|discriminate].
  intros H; inversion H; subst; exact Ht.
Qed.

(** What a runner reports is what it measured, rounded. *)
Lemma run_non_streaming_reported (tk : tiktoken_module) (clock : nat -> float)
      (post : result response) (model : string) (r : report) :
  run_non_streaming tk clock post model = Ok r ->
  exists m : report,
    measure_non_streaming tk clock post model = Ok m /\ r = reported m.
Proof.
  unfold run_non_streaming, bind.
  destruct (measure_non_streaming tk clock post model) as [m|e]; [|discriminate].
  intros H; inversion H; now exists m.
Qed.

Lemma run_streaming_reported (tk : tiktoken_module) (clock : nat -> float)
      (json_loads : string -> result pyval)
      (post : result response) (model : string) (r : report) :
  run_streaming tk clock json_loads post model = Ok r ->
  exists m : report,
    measure_streaming tk clock json_loads post model = Ok m /\ r = reported m.
Proof.
  unfold run_streaming, bind.
  destruct (measure_streaming tk clock json_loads post model) as [m|e]; [|discriminate].
  intros H; inversion H; now exists m.
Qed.

(** Rounding keeps a zero and an infinity. *)
Lemma py_round_zero (x : float) : feqb x fzero = true -> py_round 6 x = x.
Proof.
  destruct x as [s|s| |s m e]; try reflexivity.
  unfold feqb, SFeqb; simpl; destruct s; discriminate.
Qed.

Lemma measured_rate (m : report) :
  throughput (tokens m) (elapsed_seconds m) = Ok (tokens_per_second m) ->
  (fltb fzero (elapsed_seconds m) = true ->
   py_truediv (tokens m) (elapsed_seconds m) = Ok (tokens_per_second m))
  /\ (feqb (elapsed_seconds m) fzero = true ->
      tokens_per_second m = finf
      /\ tokens_per_second (reported m) = finf
      /\ elapsed_seconds (reported m) = elapsed_seconds m).
Proof.
  intros Ht; destruct (throughput_cases _ _ _ Ht) as [Hpos Hzero].
  split; [exact Hpos|].
  intros Hz; specialize (Hzero Hz).
  split; [exact Hzero|]; split.
  - unfold reported; cbn [tokens_per_second]; now rewrite Hzero.
  - unfold reported; cbn [elapsed_seconds]; now apply py_round_zero.
Qed.

(** C2 (as amended): in both modes the report carries the measured elapsed
    seconds and the tokens per second, each rounded to 6 decimal places.
    Before the rounding, the tokens per second are the token count divided
    by the elapsed seconds when these are positive, and positive infinity
    when they are zero; in that case the report shows the infinity and the
    zero as they are.  A stream of one fragment and the sentinel, both
    stamped with the same reading, reports 0.0 seconds and an infinite
    throughput. *)
Theorem throughput_reported (tk : tiktoken_module) (clock : nat -> float)
        (json_loads : string -> result pyval) (model : string) :
  (forall (post : result response) (r : report),
      run_non_streaming tk clock post model = Ok r ->
      exists m : report,
        measure_non_streaming tk clock post model = Ok m
        /\ r = reported m
        /\ (fltb fzero (elapsed_seconds m) = true ->
            py_truediv (tokens m) (elapsed_seconds m) = Ok (tokens_per_second m))
        /\ (feqb (elapsed_seconds m) fzero = true ->
            tokens_per_second m = finf
            /\ tokens_per_second r = finf
            /\ elapsed_seconds r = elapsed_seconds m))
  /\ (forall (post : result response) (r : report),
        run_streaming tk clock json_loads post model = Ok r ->
        exists m : report,
          measure_streaming tk clock json_loads post model = Ok m
          /\ r = reported m
          /\ (fltb fzero (elapsed_seconds m) = true ->
              py_truediv (tokens m) (elapsed_seconds m) = Ok (tokens_per_second m))
          /\ (feqb (elapsed_seconds m) fzero = true ->
              tokens_per_second m = finf
              /\ tokens_per_second r = finf
              /\ elapsed_seconds r = elapsed_seconds m))
  /\ (forall (resp : response) (raw payload : string) (obj : pyval) (s : string)
             (t : float),
        raise_for_status resp = Ok tt ->
        iter_lines resp = [Some raw; Some "data: [DONE]"] ->
        decodes_to json_loads raw payload obj ->
        text_piece_of obj = PyStr s ->
        s <> EmptyString ->
        clock 0 = t -> clock 1 = t -> float_is_finite t = true ->
        exists r : report,
          run_streaming tk clock json_loads (Ok resp) model = Ok r
          /\ elapsed_seconds r = fzero
          /\ tokens_per_second r = finf).
Proof.
  split; [|split].
  - intros post r Hrun.
    destruct (run_non_streaming_reported _ _ _ _ _ Hrun) as [m [Hm ->]].
    exists m; split; [exact Hm|]; split; [reflexivity|].
    apply measured_rate; eapply measure_non_streaming_throughput; eauto.
  - intros post r Hrun.
    destruct (run_streaming_reported _ _ _ _ _ _ Hrun) as [m [Hm ->]].
    exists m; split; [exact Hm|]; split; [reflexivity|].
    apply measured_rate; eapply measure_streaming_throughput; eauto.
  - intros resp raw payload obj s t Hstatus Hlines Hdec Hpiece Hs H0 H1 Hfin.
    assert (Hev : line_event_of json_loads (Some raw) = Fragment (PyStr s)).
    { rewrite (fragment_line_event _ _ _ _ Hdec), Hpiece.
      destruct s; [congruence | reflexivity]. }
    assert (Hst : consume_lines clock json_loads initial_state
                    [Some raw; Some "data: [DONE]"]
                  = record_done clock (record_fragment clock initial_state (PyStr s))).
    { cbn [consume_lines].
      rewrite process_line_event, Hev.
      rewrite process_line_event, sentinel_line_event; reflexivity. }
    assert (Hcons : consume clock json_loads [Some raw; Some "data: [DONE]"]
                    = Ok ((s ++ "")%string, fzero)).
    { unfold consume; rewrite Hst; cbn [chunks record_done record_fragment
        initial_state app py_join bind].
      unfold elapsed_of; cbn [first_token_time last_token_time record_done
        record_fragment initial_state ticks].
      rewrite H0, H1, (fsub_diag t Hfin).
      destruct (float_truthy t); reflexivity. }
    destruct (token_count_str tk (s ++ "") (Some model)) as [n [Hn _]].
    exists {| mode := "stream"; tokens := PyInt n;
              elapsed_seconds := fzero; tokens_per_second := finf |}.
    split; [|split; reflexivity].
    unfold run_streaming, measure_streaming.
    cbn [bind]; rewrite Hstatus; cbn [bind].
    rewrite Hlines, Hcons; cbn [bind fst snd].
    rewrite Hn; reflexivity.
Qed.

Lemma throughput_reported_witness :
  (exists r : report,
      run_streaming Plain.no_tiktoken Plain.frozen Plain.json_loads
        (Ok {| raise_for_status := Ok tt;
               json := Raise JSONDecodeError;
               iter_lines := [Some (Plain.chat_line "Hello"); Some "data: [DONE]"] |})
        "m" = Ok r
      /\ elapsed_seconds r = fzero
      /\ tokens_per_second r = finf)
  /\ run_streaming Plain.no_tiktoken Plain.ticking Plain.json_loads
       (Ok {| raise_for_status := Ok tt;
              json := Raise JSONDecodeError;
              iter_lines := [Some (Plain.chat_line "Hello");
                             Some (Plain.completion_line " world");
                             Some "data: [DONE]"] |})
       "m"
     = Ok {| mode := "stream"; tokens := PyInt 2;
             elapsed_seconds := Plain.seconds 2;
             tokens_per_second := Plain.seconds 1 |}
  /\ fltb fzero (Plain.seconds 2) = true
  /\ py_truediv (PyInt 2) (Plain.seconds 2) = Ok (Plain.seconds 1).
Proof.
  pose proof (throughput_reported Plain.no_tiktoken Plain.frozen Plain.json_loads "m")
    as [_ [_ Hsingle]].
  pose proof (throughput_reported Plain.no_tiktoken Plain.ticking Plain.json_loads "m")
    as [_ [Hrate _]].
  split.
  - apply (Hsingle _ (Plain.chat_line "Hello")
             (payload_of (strip (Plain.chat_line "Hello")))
             (chat_object "Hello") "Hello" (Plain.seconds 1000)).
    + reflexivity.
    + reflexivity.
    + repeat split; reflexivity.
    + reflexivity.
    + discriminate.
    + reflexivity.
    + reflexivity.
    + reflexivity.
  - split; [reflexivity|].
    split; [reflexivity|].
    destruct (Hrate (Ok {| raise_for_status := Ok tt;
                           json := Raise JSONDecodeError;
                           iter_lines := [Some (Plain.chat_line "Hello");
                                          Some (Plain.completion_line " world");
                                          Some "data: [DONE]"] |})
                    {| mode := "stream"; tokens := PyInt 2;
                       elapsed_seconds := Plain.seconds 2;
                       tokens_per_second := Plain.seconds 1 |}
                    eq_refl) as [m [Hm [_ [Hpos _]]]].
    vm_compute in Hm; inversion Hm; subst m.
    exact (Hpos eq_refl).
Defined.

(** C2 as stated fails on what is reported.  A buffered run that takes
    2^-23 seconds reports 0.0 elapsed seconds next to a finite throughput,
    and a stream of one token in 3 seconds reports 0.333333 tokens per
    second, which is not 1 divided by 3.0. *)
Lemma tiny_elapsed_reported_as_zero :
  run_non_streaming Plain.no_tiktoken Plain.quick
    (Ok {| raise_for_status := Ok tt;
           json := Plain.json_loads (Plain.usage_body "hi" "7");
           iter_lines := [] |})
    "m"
  = Ok {| mode := "non-stream"; tokens := PyInt 7;
          elapsed_seconds := fzero;
          tokens_per_second := Plain.seconds 58720256 |}
  /\ run_streaming Plain.no_tiktoken Plain.ticking Plain.json_loads
       (Ok {| raise_for_status := Ok tt;
              json := Raise JSONDecodeError;
              iter_lines := [Some (Plain.chat_line "a"); Some (Plain.chat_line "b");
                             Some (Plain.chat_line "c"); Some "data: [DONE]"] |})
       "m"
     = Ok {| mode := "stream"; tokens := PyInt 1;
             elapsed_seconds := Plain.seconds 3;
             tokens_per_second := py_round 6 (fdiv (Plain.seconds 1) (Plain.seconds 3)) |}
  /\ py_round 6 (fdiv (Plain.seconds 1) (Plain.seconds 3))
     <> fdiv (Plain.seconds 1) (Plain.seconds 3)
  /\ ~ (forall (tk : tiktoken_module) (clock : nat -> float)
               (post : result response) (model : string) (r : report),
          run_non_streaming tk clock post model = Ok r ->
          (fltb fzero (elapsed_seconds r) = true ->
           py_truediv (tokens r) (elapsed_seconds r) = Ok (tokens_per_second r))
          /\ (feqb (elapsed_seconds r) fzero = true -> tokens_per_second r = finf)).
Proof.
  split; [vm_compute; reflexivity|].
  split; [vm_compute; reflexivity|].
  split; [vm_compute; discriminate|].
  intros Hclaim.
  destruct (Hclaim Plain.no_tiktoken Plain.quick
              (Ok {| raise_for_status := Ok tt;
                     json := Plain.json_loads (Plain.usage_body "hi" "7");
                     iter_lines := [] |})
              "m"
              {| mode := "non-stream"; tokens := PyInt 7;
                 elapsed_seconds := fzero;
                 tokens_per_second := Plain.seconds 58720256 |})
    as [_ Hzero]; [vm_compute; reflexivity|].
  specialize (Hzero eq_refl); vm_compute in Hzero; discriminate Hzero.
Qed.

(** ** The accumulated text (C4) *)

(** Before the sentinel, the fragments of a stream are those of its first
    part followed by those of the rest. *)
Lemma fragments_app (json_loads : string -> result pyval)
      (before after : list (option string)) :
  (forall raw, In raw before -> line_event_of json_loads raw <> Sentinel) ->
  fragments json_loads (before ++ after) =
  fragments json_loads before ++ fragments json_loads after.
Proof.
  induction before as [|raw before IH]; intros Hopen; simpl; [reflexivity|].
  destruct (line_event_of json_loads raw) as [| |piece] eqn:Hev.
  - apply IH; intros r Hr; apply Hopen; now right.
  - exfalso; apply (Hopen raw); [now left | exact Hev].
  - rewrite IH; [reflexivity|].
    intros r Hr; apply Hopen; now right.
Qed.



(** ** The two schemas (C5) *)

Lemma completion_text_piece (s : string) : text_piece_of (completion_object s) = PyStr s.
Proof.
  reflexivity.
Qed.

Lemma chat_text_piece (s : string) : text_piece_of (chat_object s) = PyStr s.
Proof.
  reflexivity.
Qed.

(** C5: a completion line carrying [{"choices":[{"text":s}]}] and a chat
    line carrying [{"choices":[{"delta":{"content":s}}]}] give the same
    fragment, take the loop to the same state and so lead to the same
    accumulated text. *)
Theorem schemas_extract_alike (clock : nat -> float)
        (json_loads : string -> result pyval) (s : string)
        (completion payload1 chat payload2 : string) :
  decodes_to json_loads completion payload1 (completion_object s) ->
  decodes_to json_loads chat payload2 (chat_object s) ->
  text_piece_of (completion_object s) = text_piece_of (chat_object s)
  /\ line_event_of json_loads (Some completion) = line_event_of json_loads (Some chat)
  /\ (forall st : stream_state,
        process_line clock json_loads st (Some completion)
        = process_line clock json_loads st (Some chat))
  /\ (forall rest : list (option string),
        consume clock json_loads (Some completion :: rest)
        = consume clock json_loads (Some chat :: rest)).
Proof.
  intros H1 H2.
  assert (Hev : line_event_of json_loads (Some completion)
                = line_event_of json_loads (Some chat)).
  { rewrite (fragment_line_event _ _ _ _ H1), (fragment_line_event _ _ _ _ H2).
    now rewrite completion_text_piece, chat_text_piece. }
  assert (Hstep : forall st, process_line clock json_loads st (Some completion)
                             = process_line clock json_loads st (Some chat)).
  { intros st; now rewrite !process_line_event, Hev. }
  split; [now rewrite completion_text_piece, chat_text_piece|].
  split; [exact Hev|].
  split; [exact Hstep|].
  intros rest; unfold consume; cbn [consume_lines].
  now rewrite Hstep.
Qed.

Lemma schemas_extract_alike_witness :
  decodes_to Plain.json_loads (Plain.completion_line "foo")
    (payload_of (strip (Plain.completion_line "foo"))) (completion_object "foo")
  /\ decodes_to Plain.json_loads (Plain.chat_line "foo")
       (payload_of (strip (Plain.chat_line "foo"))) (chat_object "foo")
  /\ consume Plain.ticking Plain.json_loads [Some (Plain.completion_line "foo")]
     = Ok ("foo", fzero)
  /\ consume Plain.ticking Plain.json_loads [Some (Plain.completion_line "foo")]
     = consume Plain.ticking Plain.json_loads [Some (Plain.chat_line "foo")].
Proof.
  assert (H1 : decodes_to Plain.json_loads (Plain.completion_line "foo")
                 (payload_of (strip (Plain.completion_line "foo")))
                 (completion_object "foo")).
  { repeat split; reflexivity. }
  assert (H2 : decodes_to Plain.json_loads (Plain.chat_line "foo")
                 (payload_of (strip (Plain.chat_line "foo"))) (chat_object "foo")).
  { repeat split; reflexivity. }
  split; [exact H1|].
  split; [exact H2|].
  split; [reflexivity|].
  exact (proj2 (proj2 (proj2 (schemas_extract_alike Plain.ticking Plain.json_loads
                                "foo" _ _ _ _ H1 H2))) []).
Defined.

(** ** Lines that are not JSON (C6) *)

(** C6 (as amended): a line whose payload is not empty, is not the sentinel
    and is rejected by the decoder does not stop the loop; the payload is
    appended as it is, the last stamp is set to the current reading and the
    first stamp too unless it was set before.  The payload then begins the
    text accumulated from the lines that follow. *)
Theorem undecodable_line_passthrough (clock : nat -> float)
        (json_loads : string -> result pyval) (st : stream_state)
        (raw payload : string) :
  undecodable json_loads raw payload ->
  payload <> EmptyString ->
  let st' := fst (process_line clock json_loads st (Some raw)) in
  snd (process_line clock json_loads st (Some raw)) = Continue
  /\ chunks st' = chunks st ++ [PyStr payload]
  /\ last_token_time st' = Some (clock (ticks st))
  /\ first_token_time st' =
     Some (match first_token_time st with
           | Some t => t
           | None => clock (ticks st)
           end)
  /\ (forall (rest : list (option string)) (text : string) (elapsed : float),
        consume clock json_loads (Some raw :: rest) = Ok (text, elapsed) ->
        exists tail : string, text = (payload ++ tail)%string).
Proof.
  intros [Hline [Hpay [Hdone [e He]]]] Hne.
  assert (Hev : line_event_of json_loads (Some raw) = Fragment (PyStr payload)).
  { unfold line_event_of; rewrite Hline, <- Hpay, Hdone, He.
    destruct payload; [congruence | reflexivity]. }
  intros st'; unfold st'; rewrite process_line_event, Hev; cbn [fst snd].
  split; [reflexivity|].
  split; [reflexivity|].
  split; [reflexivity|].
  split; [unfold record_fragment; cbn [first_token_time];
          now destruct (first_token_time st)|].
  intros rest text elapsed; unfold consume, bind.
  rewrite consume_lines_chunks; cbn [chunks initial_state app fragments].
  rewrite Hev; cbn [py_join bind].
  destruct (py_join (fragments json_loads rest)) as [tail|e']; [|discriminate].
  intros H; inversion H; subst; now exists tail.
Qed.

Lemma undecodable_line_passthrough_witness :
  undecodable Plain.json_loads "heartbeat" "heartbeat"
  /\ "heartbeat" <> EmptyString
  /\ consume Plain.ticking Plain.json_loads
       [Some "heartbeat"; Some (Plain.chat_line "Hello"); Some "data: [DONE]"]
     = Ok ("heartbeatHello", Plain.seconds 2)
  /\ chunks (fst (process_line Plain.ticking Plain.json_loads initial_state
                    (Some "heartbeat")))
     = [] ++ [PyStr "heartbeat"].
Proof.
  assert (H : undecodable Plain.json_loads "heartbeat" "heartbeat").
  { repeat split; try reflexivity. exists JSONDecodeError; reflexivity. }
  assert (Hne : "heartbeat" <> EmptyString) by discriminate.
  split; [exact H|].
  split; [exact Hne|].
  split; [reflexivity|].
  exact (proj1 (proj2 (undecodable_line_passthrough Plain.ticking Plain.json_loads
                         initial_state "heartbeat" "heartbeat" H Hne))).
Defined.

(** C6 as stated fails: the payload of the line [data:] is empty and is
    rejected by the decoder, yet nothing is appended and no stamp is set. *)
Lemma empty_payload_not_recorded :
  undecodable Plain.json_loads "data:" EmptyString
  /\ process_line Plain.ticking Plain.json_loads initial_state (Some "data:")
     = (initial_state, Continue)
  /\ ~ (forall (json_loads : string -> result pyval) (clock : nat -> float)
               (st : stream_state) (raw payload : string),
          undecodable json_loads raw payload ->
          let st' := fst (process_line clock json_loads st (Some raw)) in
          chunks st' = chunks st ++ [PyStr payload]
          /\ last_token_time st' = Some (clock (ticks st))).
Proof.
  assert (H : undecodable Plain.json_loads "data:" EmptyString).
  { repeat split; try reflexivity. exists JSONDecodeError; reflexivity. }
  split; [exact H|].
  split; [reflexivity|].
  intros Hclaim.
  destruct (Hclaim Plain.json_loads Plain.ticking initial_state "data:" EmptyString H)
    as [Hchunks _].
  discriminate Hchunks.
Qed.

(** ** Empty fragments (C7) *)

Lemma delta_without_content (entries ch d : list (string * pyval))
      (more : list pyval) :
  dict_lookup "choices" entries = Some (PyList (PyDict ch :: more)) ->
  dict_lookup "delta" ch = Some (PyDict d) ->
  dict_lookup "content" d = None ->
  text_piece_of (PyDict entries) = PyStr "".
Proof.
  intros Hc Hd Hn.
  unfold text_piece_of, choice_text; cbn [py_get bind].
  rewrite Hc; cbn [py_or truthy getitem_first bind py_in getitem_key].
  rewrite Hd; cbn [bind isinstance_dict py_get].
  now rewrite Hn.
Qed.

Lemma neither_delta_nor_text (entries ch : list (string * pyval))
      (more : list pyval) :
  dict_lookup "choices" entries = Some (PyList (PyDict ch :: more)) ->
  dict_lookup "delta" ch = None ->
  dict_lookup "text" ch = None ->
  text_piece_of (PyDict entries) = PyStr "".
Proof.
  intros Hc Hd Ht.
  unfold text_piece_of, choice_text; cbn [py_get bind].
  rewrite Hc; cbn [py_or truthy getitem_first bind py_in getitem_key].
  rewrite Hd; cbn [bind].
  now rewrite Ht.
Qed.

(** C7 (as amended): a decoded line whose first choice gives an empty
    fragment, that is a fragment that is false in the test of line 136,
    leaves the accumulator and both stamps as they were, and the loop takes
    no clock reading for it.  A delta object without a content entry and a
    choice with neither delta nor text give such a fragment, and so does a
    content that is null, the empty string or another false value. *)
Theorem empty_fragment_changes_nothing (clock : nat -> float)
        (json_loads : string -> result pyval) (st : stream_state)
        (raw payload : string) (obj : pyval) :
  decodes_to json_loads raw payload obj ->
  (truthy (text_piece_of obj) = false
   \/ exists (entries ch : list (string * pyval)) (more : list pyval),
        obj = PyDict entries
        /\ dict_lookup "choices" entries = Some (PyList (PyDict ch :: more))
        /\ ((exists d : list (string * pyval),
                dict_lookup "delta" ch = Some (PyDict d)
                /\ dict_lookup "content" d = None)
            \/ (dict_lookup "delta" ch = None /\ dict_lookup "text" ch = None))) ->
  process_line clock json_loads st (Some raw) = (st, Continue)
  /\ chunks (fst (process_line clock json_loads st (Some raw))) = chunks st
  /\ first_token_time (fst (process_line clock json_loads st (Some raw)))
     = first_token_time st
  /\ last_token_time (fst (process_line clock json_loads st (Some raw)))
     = last_token_time st.
Proof.
  intros Hdec Hshape.
  assert (Hempty : truthy (text_piece_of obj) = false).
  { destruct Hshape as [H|[entries [ch [more [-> [Hc [[d [Hd Hn]]|[Hd Ht]]]]]]]].
    - exact H.
    - now rewrite (delta_without_content _ _ _ _ Hc Hd Hn).
    - now rewrite (neither_delta_nor_text _ _ _ Hc Hd Ht). }
  assert (Hstep : process_line clock json_loads st (Some raw) = (st, Continue)).
  { rewrite process_line_event, (fragment_line_event _ _ _ _ Hdec), Hempty.
    reflexivity. }
  rewrite Hstep; repeat split; reflexivity.
Qed.

Lemma empty_fragment_changes_nothing_witness :
  decodes_to Plain.json_loads Plain.role_line (payload_of (strip Plain.role_line))
    (PyDict [("choices", PyList [PyDict [("delta",
                                          PyDict [("role", PyStr "assistant")])]])])
  /\ process_line Plain.ticking Plain.json_loads
       (record_fragment Plain.ticking initial_state (PyStr "Hi")) (Some Plain.role_line)
     = (record_fragment Plain.ticking initial_state (PyStr "Hi"), Continue).
Proof.
  assert (H : decodes_to Plain.json_loads Plain.role_line
                (payload_of (strip Plain.role_line))
                (PyDict [("choices", PyList [PyDict [("delta",
                           PyDict [("role", PyStr "assistant")])]])])).
  { repeat split; reflexivity. }
  split; [exact H|].
  refine (proj1 (empty_fragment_changes_nothing Plain.ticking Plain.json_loads
                   (record_fragment Plain.ticking initial_state (PyStr "Hi"))
                   _ _ _ H _)).
  right.
  exists [("choices", PyList [PyDict [("delta", PyDict [("role", PyStr "assistant")])]])],
         [("delta", PyDict [("role", PyStr "assistant")])], [].
  split; [reflexivity|].
  split; [reflexivity|].
  left; exists [("role", PyStr "assistant")]; split; reflexivity.
Defined.

(** C7 as stated fails: the delta of the chunk [{"choices":[{"delta":
    {"content":5}}]}] has no content string, yet its content is true in the
    test of line 136, so it is appended and both stamps are set. *)
Lemma true_content_is_appended :
  decodes_to Plain.json_loads (Plain.content_line "5")
    (payload_of (strip (Plain.content_line "5")))
    (PyDict [("choices", PyList [PyDict [("delta", PyDict [("content", PyInt 5)])]])])
  /\ process_line Plain.ticking Plain.json_loads initial_state
       (Some (Plain.content_line "5"))
     = ({| first_token_time := Some (Plain.seconds 1000);
           last_token_time := Some (Plain.seconds 1000);
           chunks := [PyInt 5];
           ticks := 1 |}, Continue)
  /\ ~ (forall (json_loads : string -> result pyval) (clock : nat -> float)
               (st : stream_state) (raw payload : string)
               (entries ch d : list (string * pyval)) (more : list pyval),
          decodes_to json_loads raw payload (PyDict entries) ->
          dict_lookup "choices" entries = Some (PyList (PyDict ch :: more)) ->
          dict_lookup "delta" ch = Some (PyDict d) ->
          (forall s : string, dict_lookup "content" d <> Some (PyStr s)) ->
          process_line clock json_loads st (Some raw) = (st, Continue)).
Proof.
  assert (H : decodes_to Plain.json_loads (Plain.content_line "5")
                (payload_of (strip (Plain.content_line "5")))
                (PyDict [("choices",
                          PyList [PyDict [("delta", PyDict [("content", PyInt 5)])]])])).
  { repeat split; reflexivity. }
  split; [exact H|]; split; [reflexivity|].
  intros Hclaim.
  specialize (Hclaim Plain.json_loads Plain.ticking initial_state _ _
                [("choices", PyList [PyDict [("delta", PyDict [("content", PyInt 5)])]])]
                [("delta", PyDict [("content", PyInt 5)])]
                [("content", PyInt 5)] [] H eq_refl eq_refl).
  assert (Hno : forall s : string,
             dict_lookup "content" [("content", PyInt 5)] <> Some (PyStr s)).
  { intros s; discriminate. }
  specialize (Hclaim Hno).
  vm_compute in Hclaim; discriminate Hclaim.
Qed.

(** ** The buffered mode (C8, C10) *)

Lemma usage_found (entries usage : list (string * pyval)) (v : pyval) :
  dict_lookup "usage" entries = Some (PyDict usage) ->
  dict_lookup "total_tokens" usage = Some v ->
  response_usage (PyDict entries) = Ok v.
Proof.
  intros Hu Hv; unfold response_usage; cbn [py_in bind getitem_key].
  rewrite Hu; cbn [bind isinstance_dict py_get].
  now rewrite Hv.
Qed.

(** With a usage count the run does not depend on the token counter. *)
Lemma run_with_usage (tk : tiktoken_module) (clock : nat -> float) (resp : response)
      (model : string) (entries usage : list (string * pyval)) (v : pyval) :
  raise_for_status resp = Ok tt ->
  json resp = Ok (PyDict entries) ->
  dict_lookup "usage" entries = Some (PyDict usage) ->
  dict_lookup "total_tokens" usage = Some v ->
  is_none v = false ->
  run_non_streaming tk clock (Ok resp) model =
  (text <- response_text (PyDict entries) ;;
   tps <- throughput v (fsub (clock 1) (clock 0)) ;;
   Ok {| mode := "non-stream"; tokens := v;
         elapsed_seconds := py_round 6 (fsub (clock 1) (clock 0));
         tokens_per_second := py_round 6 tps |}).
Proof.
  intros Hstatus Hjson Hu Hv Hnone.
  unfold run_non_streaming, measure_non_streaming; cbn [bind].
  rewrite Hstatus, Hjson; cbn [bind].
  unfold response_locals; cbn [isinstance_dict].
  rewrite (usage_found _ _ _ Hu Hv).
  destruct (response_text (PyDict entries)) as [text|e]; cbn [bind fst snd];
    [|reflexivity].
  unfold count_tokens; cbn [read_local bind].
  rewrite Hnone; cbn [negb bind].
  destruct (throughput v (fsub (clock 1) (clock 0))); reflexivity.
Qed.

Lemma throughput_of_seven (elapsed : float) :
  exists tps : float, throughput (PyInt 7) elapsed = Ok tps.
Proof.
  unfold throughput.
  destruct (fltb fzero elapsed) eqn:Hpos; [|eexists; reflexivity].
  destruct elapsed as [s|s| |s m e]; try (eexists; reflexivity).
  discriminate Hpos.
Qed.

(** C8: when the body is an object whose [usage] is an object with a
    [total_tokens] other than null, the run is the same whatever the token
    counter would answer, and every report it makes carries that value as
    its token count.  For the body with content [hi] and a usage of 7 a
    report is made, with 7 tokens. *)
Theorem usage_overrides_count (tk : tiktoken_module) (clock : nat -> float)
        (resp : response) (model : string)
        (entries usage : list (string * pyval)) (v : pyval) :
  raise_for_status resp = Ok tt ->
  json resp = Ok (PyDict entries) ->
  dict_lookup "usage" entries = Some (PyDict usage) ->
  dict_lookup "total_tokens" usage = Some v ->
  is_none v = false ->
  (forall tk' : tiktoken_module,
      run_non_streaming tk' clock (Ok resp) model
      = run_non_streaming tk clock (Ok resp) model)
  /\ (forall r : report,
        run_non_streaming tk clock (Ok resp) model = Ok r -> tokens r = v)
  /\ (forall (text : pyval) (tps : float),
        response_text (PyDict entries) = Ok text ->
        throughput v (fsub (clock 1) (clock 0)) = Ok tps ->
        run_non_streaming tk clock (Ok resp) model =
        Ok {| mode := "non-stream"; tokens := v;
              elapsed_seconds := py_round 6 (fsub (clock 1) (clock 0));
              tokens_per_second := py_round 6 tps |})
  /\ (PyDict entries = usage_example ->
      exists r : report,
        run_non_streaming tk clock (Ok resp) model = Ok r /\ tokens r = PyInt 7).
Proof.
  intros Hstatus Hjson Hu Hv Hnone.
  pose proof (fun t => run_with_usage t clock resp model entries usage v
                         Hstatus Hjson Hu Hv Hnone) as Hrun.
  split; [intros tk'; now rewrite !Hrun|].
  split.
  { intros r; rewrite Hrun; unfold bind.
    destruct (response_text (PyDict entries)); [|discriminate].
    destruct (throughput v (fsub (clock 1) (clock 0))); [|discriminate].
    intros H; inversion H; reflexivity. }
  split.
  { intros text tps Ht Htps; rewrite Hrun, Ht; cbn [bind]; now rewrite Htps. }
  intros Hex; rewrite Hrun.
  assert (Hv7 : v = PyInt 7).
  { inversion Hex; subst entries.
    cbn in Hu; inversion Hu; subst usage.
    cbn in Hv; now inversion Hv. }
  subst v; rewrite Hex.
  destruct (throughput_of_seven (fsub (clock 1) (clock 0))) as [tps Htps].
  eexists; split.
  - change (response_text usage_example) with (Ok (PyStr "hi")); cbn [bind].
    rewrite Htps; reflexivity.
  - reflexivity.
Qed.

Lemma usage_overrides_count_witness :
  Plain.json_loads (Plain.usage_body "hi" "7") = Ok usage_example
  /\ run_non_streaming Plain.char_tiktoken Plain.ticking
       (Ok {| raise_for_status := Ok tt;
              json := Plain.json_loads (Plain.usage_body "hi" "7");
              iter_lines := [] |})
       "m"
     = Ok {| mode := "non-stream"; tokens := PyInt 7;
             elapsed_seconds := Plain.seconds 1;
             tokens_per_second := Plain.seconds 7 |}
  /\ exists r : report,
       run_non_streaming Plain.no_tiktoken Plain.ticking
         (Ok {| raise_for_status := Ok tt;
                json := Plain.json_loads (Plain.usage_body "hi" "7");
                iter_lines := [] |})
         "m" = Ok r
       /\ tokens r = PyInt 7.
Proof.
  split; [reflexivity|].
  split; [reflexivity|].
  refine (proj2 (proj2 (proj2
            (usage_overrides_count Plain.no_tiktoken Plain.ticking
               {| raise_for_status := Ok tt;
                  json := Plain.json_loads (Plain.usage_body "hi" "7");
                  iter_lines := [] |}
               "m" _ [("total_tokens", PyInt 7)] (PyInt 7)
               eq_refl eq_refl eq_refl eq_refl eq_refl))) eq_refl).
Defined.

(** C10: when the body of a successful response is not an object (a
    top-level array, for one) the run ends with the unbound local variable
    [usage_tokens]; no report is made, not even one counting the empty
    text. *)
Theorem non_object_body_unbound (tk : tiktoken_module) (clock : nat -> float)
        (resp : response) (model : string) (data : pyval) :
  raise_for_status resp = Ok tt ->
  json resp = Ok data ->
  isinstance_dict data = false ->
  run_non_streaming tk clock (Ok resp) model = Raise (UnboundLocalError "usage_tokens")
  /\ (forall r : report, run_non_streaming tk clock (Ok resp) model <> Ok r).
Proof.
  intros Hstatus Hjson Hdict.
  assert (Hrun : run_non_streaming tk clock (Ok resp) model
                 = Raise (UnboundLocalError "usage_tokens")).
  { unfold run_non_streaming, measure_non_streaming; cbn [bind].
    rewrite Hstatus, Hjson; cbn [bind].
    unfold response_locals; rewrite Hdict; reflexivity. }
  split; [exact Hrun|].
  intros r; rewrite Hrun; discriminate.
Qed.

Lemma non_object_body_unbound_witness :
  Plain.json_loads "[]" = Ok (PyList [])
  /\ isinstance_dict (PyList []) = false
  /\ run_non_streaming Plain.no_tiktoken Plain.ticking
       (Ok {| raise_for_status := Ok tt;
              json := Plain.json_loads "[]";
              iter_lines := [] |})
       "m"
     = Raise (UnboundLocalError "usage_tokens").
Proof.
  split; [reflexivity|].
  split; [reflexivity|].
  exact (proj1 (non_object_body_unbound Plain.no_tiktoken Plain.ticking
                  {| raise_for_status := Ok tt;
                     json := Plain.json_loads "[]";
                     iter_lines := [] |}
                  "m" (PyList []) eq_refl eq_refl eq_refl)).
Defined.

(** * Further properties of the stream consumer *)

(** ** What the loop reads and what it passes over *)

Lemma consume_lines_after_sentinel (clock : nat -> float)
      (json_loads : string -> result pyval) (raw : option string)
      (before after : list (option string)) (st : stream_state) :
  line_event_of json_loads raw = Sentinel ->
  consume_lines clock json_loads st (before ++ raw :: after)
  = consume_lines clock json_loads st (before ++ [raw]).
Proof.
  intros Hraw; revert st; induction before as [|b before IH]; intros st; simpl.
  - now rewrite process_line_event, Hraw.
  - rewrite process_line_event.
    destruct (line_event_of json_loads b); [apply IH | reflexivity | apply IH].
Qed.

(** X1: the loop stops at the sentinel: whatever the server sends after it has
    no effect on the accumulated text, on the elapsed time, or on the
    report. *)
Theorem lines_after_sentinel_ignored (tk : tiktoken_module) (clock : nat -> float)
        (json_loads : string -> result pyval) (raw : option string)
        (before after : list (option string)) (resp resp' : response)
        (model : string) :
  line_event_of json_loads raw = Sentinel ->
  raise_for_status resp = raise_for_status resp' ->
  iter_lines resp = before ++ raw :: after ->
  iter_lines resp' = before ++ [raw] ->
  consume clock json_loads (before ++ raw :: after)
  = consume clock json_loads (before ++ [raw])
  /\ run_streaming tk clock json_loads (Ok resp) model
     = run_streaming tk clock json_loads (Ok resp') model.
Proof.
  intros Hraw Hstatus Hlines Hlines'.
  assert (Hc : consume clock json_loads (before ++ raw :: after)
               = consume clock json_loads (before ++ [raw])).
  { unfold consume; now rewrite (consume_lines_after_sentinel _ _ _ _ after _ Hraw). }
  split; [exact Hc|].
  unfold run_streaming, measure_streaming; cbn [bind].
  now rewrite Hstatus, Hlines, Hlines', Hc.
Qed.

Lemma lines_after_sentinel_ignored_witness :
  line_event_of Plain.json_loads (Some "data: [DONE]") = Sentinel
  /\ consume Plain.ticking Plain.json_loads
       ([Some (Plain.chat_line "Hi")] ++ Some "data: [DONE]"
          :: [Some (Plain.chat_line " there"); Some "data: [DONE]"])
     = Ok ("Hi", Plain.seconds 1).
Proof.
  split; [reflexivity|].
  rewrite (proj1 (lines_after_sentinel_ignored Plain.no_tiktoken Plain.ticking
                    Plain.json_loads (Some "data: [DONE]")
                    [Some (Plain.chat_line "Hi")]
                    [Some (Plain.chat_line " there"); Some "data: [DONE]"]
                    {| raise_for_status := Ok tt; json := Raise JSONDecodeError;
                       iter_lines := [Some (Plain.chat_line "Hi")]
                                       ++ Some "data: [DONE]"
                                       :: [Some (Plain.chat_line " there");
                                           Some "data: [DONE]"] |}
                    {| raise_for_status := Ok tt; json := Raise JSONDecodeError;
                       iter_lines := [Some (Plain.chat_line "Hi")]
                                       ++ [Some "data: [DONE]"] |}
                    "m" eq_refl eq_refl eq_refl eq_refl)).
  reflexivity.
Defined.

Lemma consume_lines_skipped (clock : nat -> float)
      (json_loads : string -> result pyval) (raw : option string)
      (before after : list (option string)) (st : stream_state) :
  line_event_of json_loads raw = Skipped ->
  consume_lines clock json_loads st (before ++ raw :: after)
  = consume_lines clock json_loads st (before ++ after).
Proof.
  intros Hraw; revert st; induction before as [|b before IH]; intros st; simpl.
  - now rewrite process_line_event, Hraw.
  - rewrite process_line_event.
    destruct (line_event_of json_loads b); [apply IH | reflexivity | apply IH].
Qed.

Lemma lstrip_blank (s : string) : has_visible s = false -> lstrip s = EmptyString.
Proof.
  induction s as [|c s IH]; simpl; [reflexivity|].
  destruct (py_isspace c); simpl; [exact IH | discriminate].
Qed.

Lemma blank_line_event (json_loads : string -> result pyval) (raw : option string) :
  (raw = None \/ exists s : string, raw = Some s /\ has_visible s = false) ->
  line_event_of json_loads raw = Skipped.
Proof.
  intros [->|[s [-> Hs]]]; [reflexivity|].
  unfold line_event_of, strip; now rewrite (lstrip_blank _ Hs).
Qed.

(** X2: keep-alive lines cost nothing: a [None] line or a line of whitespace
    only can stand anywhere in the stream, the result of the consumer and
    the report are the same as without it. *)
Theorem blank_lines_are_transparent (tk : tiktoken_module) (clock : nat -> float)
        (json_loads : string -> result pyval) (raw : option string)
        (before after : list (option string)) (resp resp' : response)
        (model : string) :
  (raw = None \/ exists s : string, raw = Some s /\ has_visible s = false) ->
  raise_for_status resp = raise_for_status resp' ->
  iter_lines resp = before ++ raw :: after ->
  iter_lines resp' = before ++ after ->
  consume clock json_loads (before ++ raw :: after)
  = consume clock json_loads (before ++ after)
  /\ run_streaming tk clock json_loads (Ok resp) model
     = run_streaming tk clock json_loads (Ok resp') model.
Proof.
  intros Hraw Hstatus Hlines Hlines'.
  pose proof (blank_line_event json_loads raw Hraw) as Hev.
  assert (Hc : consume clock json_loads (before ++ raw :: after)
               = consume clock json_loads (before ++ after)).
  { unfold consume; now rewrite (consume_lines_skipped _ _ _ _ after _ Hev). }
  split; [exact Hc|].
  unfold run_streaming, measure_streaming; cbn [bind].
  now rewrite Hstatus, Hlines, Hlines', Hc.
Qed.

Lemma blank_lines_are_transparent_witness :
  has_visible "   " = false
  /\ consume Plain.ticking Plain.json_loads
       ([Some (Plain.chat_line "Hi")] ++ Some "   "
          :: [Some (Plain.chat_line " there"); Some "data: [DONE]"])
     = Ok ("Hi there", Plain.seconds 2).
Proof.
  split; [reflexivity|].
  rewrite (proj1 (blank_lines_are_transparent Plain.no_tiktoken Plain.ticking
                    Plain.json_loads (Some "   ")
                    [Some (Plain.chat_line "Hi")]
                    [Some (Plain.chat_line " there"); Some "data: [DONE]"]
                    {| raise_for_status := Ok tt; json := Raise JSONDecodeError;
                       iter_lines := [Some (Plain.chat_line "Hi")] ++ Some "   "
                                       :: [Some (Plain.chat_line " there");
                                           Some "data: [DONE]"] |}
                    {| raise_for_status := Ok tt; json := Raise JSONDecodeError;
                       iter_lines := [Some (Plain.chat_line "Hi")]
                                       ++ [Some (Plain.chat_line " there");
                                           Some "data: [DONE]"] |}
                    "m"
                    (or_intror (ex_intro _ "   " (conj eq_refl eq_refl)))
                    eq_refl eq_refl eq_refl)).
  reflexivity.
Defined.

(** ** The readings of the clock *)

Lemma consume_lines_ticks (clock : nat -> float) (json_loads : string -> result pyval)
      (lines : list (option string)) (st : stream_state) :
  ticks (consume_lines clock json_loads st lines)
  = ticks st + List.length (fragments json_loads lines)
    + (if sentinel_reached json_loads lines then 1 else 0).
Proof.
  revert st; induction lines as [|raw rest IH]; intros st; simpl; [lia|].
  rewrite process_line_event.
  destruct (line_event_of json_loads raw) as [| |piece].
  - apply IH.
  - simpl; lia.
  - rewrite IH; simpl; lia.
Qed.

Lemma consume_lines_last (clock : nat -> float) (json_loads : string -> result pyval)
      (lines : list (option string)) (st : stream_state) :
  last_token_time (consume_lines clock json_loads st lines)
  = match List.length (fragments json_loads lines)
          + (if sentinel_reached json_loads lines then 1 else 0) with
    | 0 => last_token_time st
    | S k => Some (clock (ticks st + k))
    end.
Proof.
  revert st; induction lines as [|raw rest IH]; intros st; simpl; [reflexivity|].
  rewrite process_line_event.
  destruct (line_event_of json_loads raw) as [| |piece].
  - apply IH.
  - simpl; now rewrite Nat.add_0_r.
  - rewrite IH; simpl.
    destruct (List.length (fragments json_loads rest)
              + (if sentinel_reached json_loads rest then 1 else 0)) as [|k].
    + now rewrite Nat.add_0_r.
    + now rewrite Nat.add_succ_r.
Qed.

(** X3: the loop reads the clock once per appended fragment and once more at
    the sentinel, and nowhere else.  The first stamp is the first reading;
    the last stamp is the reading taken at the sentinel when the stream has
    one, so the elapsed time then includes the wait for it, and the reading
    of the last fragment otherwise. *)
Theorem clock_read_per_fragment_and_sentinel (clock : nat -> float)
        (json_loads : string -> result pyval) (lines : list (option string)) :
  let st := consume_lines clock json_loads initial_state lines in
  let n := List.length (fragments json_loads lines) in
  ticks st = n + (if sentinel_reached json_loads lines then 1 else 0)
  /\ first_token_time st = match n with 0 => None | S _ => Some (clock 0) end
  /\ last_token_time st =
     (if sentinel_reached json_loads lines then Some (clock n)
      else match n with 0 => None | S k => Some (clock k) end).
Proof.
  cbv zeta; split; [|split].
  - now rewrite consume_lines_ticks.
  - rewrite consume_lines_first; simpl.
    now destruct (fragments json_loads lines).
  - rewrite consume_lines_last; simpl.
    destruct (sentinel_reached json_loads lines).
    + now rewrite Nat.add_1_r.
    + now rewrite Nat.add_0_r.
Qed.

(** ** Streams without text, and streams with a fragment that is no text *)

(** X4: a stream that yields no fragment (an immediate sentinel or an empty
    body, say) is reported with 0 tokens, 0.0 seconds and an infinite
    throughput, whatever the tokenizer and the clock. *)
Theorem stream_without_fragments (tk : tiktoken_module) (clock : nat -> float)
        (json_loads : string -> result pyval) (resp : response) (model : string) :
  raise_for_status resp = Ok tt ->
  fragments json_loads (iter_lines resp) = [] ->
  run_streaming tk clock json_loads (Ok resp) model
  = Ok {| mode := "stream"; tokens := PyInt 0;
          elapsed_seconds := fzero; tokens_per_second := finf |}.
Proof.
  intros Hstatus Hnone.
  unfold run_streaming, measure_streaming; cbn [bind]; rewrite Hstatus; cbn [bind].
  unfold consume, elapsed_of.
  rewrite consume_lines_chunks, consume_lines_first, Hnone.
  reflexivity.
Qed.

Lemma stream_without_fragments_witness :
  fragments Plain.json_loads [Some ""; Some Plain.role_line; Some "data: [DONE]"] = []
  /\ run_streaming Plain.char_tiktoken Plain.ticking Plain.json_loads
       (Ok {| raise_for_status := Ok tt; json := Raise JSONDecodeError;
              iter_lines := [Some ""; Some Plain.role_line; Some "data: [DONE]"] |})
       "m"
     = Ok {| mode := "stream"; tokens := PyInt 0;
             elapsed_seconds := fzero; tokens_per_second := finf |}.
Proof.
  split; [reflexivity|].
  exact (stream_without_fragments Plain.char_tiktoken Plain.ticking Plain.json_loads
           {| raise_for_status := Ok tt; json := Raise JSONDecodeError;
              iter_lines := [Some ""; Some Plain.role_line; Some "data: [DONE]"] |}
           "m" eq_refl eq_refl).
Defined.

Lemma py_join_not_str (xs : list pyval) (piece : pyval) :
  In piece xs -> (forall s : string, piece <> PyStr s) ->
  py_join xs = Raise TypeError.
Proof.
  intros Hin Hpiece; induction xs as [|x xs IH]; [contradiction|].
  destruct Hin as [->|Hin].
  - destruct piece; try reflexivity.
    exfalso; eapply Hpiece; reflexivity.
  - simpl; rewrite (IH Hin).
    destruct x; reflexivity.
Qed.

(** X5: the extraction does not check that a content or text value is a str: a
    value that is true and not a str (a number, a list of parts) is appended
    like any fragment, and the run then ends in the [TypeError] of the final
    join instead of a report. *)
Theorem non_text_fragment_aborts (tk : tiktoken_module) (clock : nat -> float)
        (json_loads : string -> result pyval) (resp : response) (model : string)
        (piece : pyval) :
  raise_for_status resp = Ok tt ->
  In piece (fragments json_loads (iter_lines resp)) ->
  (forall s : string, piece <> PyStr s) ->
  consume clock json_loads (iter_lines resp) = Raise TypeError
  /\ run_streaming tk clock json_loads (Ok resp) model = Raise TypeError.
Proof.
  intros Hstatus Hin Hpiece.
  assert (Hc : consume clock json_loads (iter_lines resp) = Raise TypeError).
  { unfold consume; rewrite consume_lines_chunks; cbn [chunks initial_state app].
    now rewrite (py_join_not_str _ _ Hin Hpiece). }
  split; [exact Hc|].
  unfold run_streaming, measure_streaming; cbn [bind]; rewrite Hstatus; cbn [bind].
  now rewrite Hc.
Qed.

Lemma non_text_fragment_aborts_witness :
  In (PyInt 5)
     (fragments Plain.json_loads
        [Some (Plain.chat_line "Hi"); Some (Plain.content_line "5");
         Some "data: [DONE]"])
  /\ run_streaming Plain.no_tiktoken Plain.ticking Plain.json_loads
       (Ok {| raise_for_status := Ok tt; json := Raise JSONDecodeError;
              iter_lines := [Some (Plain.chat_line "Hi");
                             Some (Plain.content_line "5");
                             Some "data: [DONE]"] |})
       "m"
     = Raise TypeError.
Proof.
  assert (Hin : In (PyInt 5)
                   (fragments Plain.json_loads
                      [Some (Plain.chat_line "Hi"); Some (Plain.content_line "5");
                       Some "data: [DONE]"])).
  { right; left; reflexivity. }
  split; [exact Hin|].
  refine (proj2 (non_text_fragment_aborts Plain.no_tiktoken Plain.ticking
                   Plain.json_loads
                   {| raise_for_status := Ok tt; json := Raise JSONDecodeError;
                      iter_lines := [Some (Plain.chat_line "Hi");
                                     Some (Plain.content_line "5");
                                     Some "data: [DONE]"] |}
                   "m" (PyInt 5) eq_refl Hin _)).
  intros s; discriminate.
Defined.

(** ** Which value of a chunk becomes the fragment *)

Lemma first_choice_text_piece (entries ch : list (string * pyval))
      (more : list pyval) :
  dict_lookup "choices" entries = Some (PyList (PyDict ch :: more)) ->
  text_piece_of (PyDict entries) =
  match dict_lookup "delta" ch with
  | Some (PyDict d) =>
      match dict_lookup "content" d with
      | Some v => v
      | None => PyStr ""
      end
  | _ =>
      match dict_lookup "text" ch with
      | Some v => v
      | None => PyStr ""
      end
  end.
Proof.
  intros Hc.
  unfold text_piece_of, choice_text; cbn [py_get bind].
  rewrite Hc; cbn [py_or truthy getitem_first bind py_in getitem_key].
  destruct (dict_lookup "delta" ch) as [delta|]; cbn [bind].
  - destruct delta; cbn [isinstance_dict bind py_get py_in];
      try reflexivity; destruct (dict_lookup "text" ch); reflexivity.
  - cbn [py_get py_in]; destruct (dict_lookup "text" ch); reflexivity.
Qed.

(** X6: when the first choice of a chunk is an object, its fragment is the
    content of its delta if the delta is an object, and empty if that delta
    has no content, whether or not the choice also has a text; only a choice
    without a delta object gives its text.  Other choices are not looked
    at. *)
Theorem delta_shadows_text (entries ch : list (string * pyval))
        (more more' : list pyval) (entries' : list (string * pyval)) :
  dict_lookup "choices" entries = Some (PyList (PyDict ch :: more)) ->
  dict_lookup "choices" entries' = Some (PyList (PyDict ch :: more')) ->
  text_piece_of (PyDict entries) = text_piece_of (PyDict entries')
  /\ (forall d : list (string * pyval),
        dict_lookup "delta" ch = Some (PyDict d) ->
        text_piece_of (PyDict entries) =
        match dict_lookup "content" d with
        | Some v => v
        | None => PyStr ""
        end)
  /\ ((dict_lookup "delta" ch = None
       \/ exists v : pyval,
            dict_lookup "delta" ch = Some v /\ isinstance_dict v = false) ->
      text_piece_of (PyDict entries) =
      match dict_lookup "text" ch with
      | Some v => v
      | None => PyStr ""
      end).
Proof.
  intros Hc Hc'.
  rewrite (first_choice_text_piece _ _ _ Hc).
  split; [now rewrite (first_choice_text_piece _ _ _ Hc')|].
  split.
  - intros d Hd; now rewrite Hd.
  - intros [Hd|[v [Hd Hv]]]; rewrite Hd; [reflexivity|].
    destruct v; try reflexivity; discriminate Hv.
Qed.

Lemma delta_shadows_text_witness :
  text_piece_of
    (PyDict [("id", PyStr "c1");
             ("choices", PyList [PyDict [("delta", PyDict [("role", PyStr "assistant")]);
                                         ("text", PyStr "foo")];
                                 PyDict [("text", PyStr "second")]])])
  = PyStr ""
  /\ text_piece_of
       (PyDict [("choices", PyList [PyDict [("delta", PyNone);
                                            ("text", PyStr "foo")]])])
     = PyStr "foo".
Proof.
  split.
  - exact (proj1 (proj2 (delta_shadows_text
             [("id", PyStr "c1");
              ("choices", PyList [PyDict [("delta", PyDict [("role", PyStr "assistant")]);
                                          ("text", PyStr "foo")];
                                  PyDict [("text", PyStr "second")]])]
             [("delta", PyDict [("role", PyStr "assistant")]); ("text", PyStr "foo")]
             [PyDict [("text", PyStr "second")]] []
             [("choices", PyList [PyDict [("delta", PyDict [("role", PyStr "assistant")]);
                                          ("text", PyStr "foo")]])]
             eq_refl eq_refl))
           [("role", PyStr "assistant")] eq_refl).
  - refine (proj2 (proj2 (delta_shadows_text
             [("choices", PyList [PyDict [("delta", PyNone); ("text", PyStr "foo")]])]
             [("delta", PyNone); ("text", PyStr "foo")] [] []
             [("choices", PyList [PyDict [("delta", PyNone); ("text", PyStr "foo")]])]
             eq_refl eq_refl)) _).
    right; exists PyNone; split; reflexivity.
Defined.

Lemma single_char_no_key (c : ascii) :
  str_contains (String c EmptyString) "delta" = false
  /\ str_contains (String c EmptyString) "text" = false.
Proof.
  split; cbn [str_contains startswith]; now rewrite andb_false_r.
Qed.

Lemma shapeless_text_piece (obj : pyval) :
  first_choice_object obj = false -> text_piece_of obj = PyStr "".
Proof.
  destruct obj as [| | | | |items|entries]; try reflexivity.
  unfold first_choice_object, text_piece_of, choice_text; cbn [py_get bind].
  destruct (dict_lookup "choices" entries) as [c|]; [|reflexivity].
  destruct c as [|b|n|x|t|items|d]; intros H.
  - reflexivity.
  - destruct b; reflexivity.
  - destruct n; reflexivity.
  - destruct x; reflexivity.
  - destruct t as [|c t]; [reflexivity|].
    cbn [py_or truthy str_is_empty negb getitem_first bind py_in].
    destruct (single_char_no_key c) as [-> ->]; reflexivity.
  - destruct items as [|first rest]; [reflexivity|].
    cbn [py_or truthy getitem_first bind].
    destruct first as [|b|n|x|t|inner|d]; try reflexivity.
    + cbn [py_in bind].
      destruct (str_contains t "delta"); cbn [bind getitem_key]; [reflexivity|].
      destruct (str_contains t "text"); reflexivity.
    + cbn [py_in bind].
      destruct (existsb (eq_str "delta") inner); cbn [bind getitem_key]; [reflexivity|].
      destruct (existsb (eq_str "text") inner); reflexivity.
    + discriminate H.
  - destruct d; reflexivity.
Qed.

(** X7: a line that decodes to something without the expected shape is passed
    over in silence.  Whatever the decoded value is, unless it is an object
    whose choices are a list that begins with an object, the state of the
    loop is left untouched: so for a JSON value that is not an object, for
    an object without choices or with null or empty choices, for choices
    that are a number, a string or an object, and for a list of choices that
    begins with null, a number, a string or a list. *)
Theorem shapeless_chunk_skipped (clock : nat -> float)
        (json_loads : string -> result pyval) (st : stream_state)
        (raw payload : string) (obj : pyval) :
  decodes_to json_loads raw payload obj ->
  first_choice_object obj = false ->
  process_line clock json_loads st (Some raw) = (st, Continue).
Proof.
  intros Hdec Hshape.
  rewrite process_line_event, (fragment_line_event _ _ _ _ Hdec).
  now rewrite (shapeless_text_piece obj Hshape).
Qed.

Lemma shapeless_chunk_skipped_witness :
  decodes_to Plain.json_loads
    ("data: {" ++ Plain.quoted "choices" ++ ": [null, 1]}")
    ("{" ++ Plain.quoted "choices" ++ ": [null, 1]}")
    (PyDict [("choices", PyList [PyNone; PyInt 1])])
  /\ first_choice_object (PyDict [("choices", PyList [PyNone; PyInt 1])]) = false
  /\ first_choice_object (PyDict [("choices", PyFloat (Plain.seconds 2))]) = false
  /\ process_line Plain.ticking Plain.json_loads initial_state
       (Some ("data: {" ++ Plain.quoted "choices" ++ ": [null, 1]}")%string)
     = (initial_state, Continue).
Proof.
  assert (H : decodes_to Plain.json_loads
                ("data: {" ++ Plain.quoted "choices" ++ ": [null, 1]}")
                ("{" ++ Plain.quoted "choices" ++ ": [null, 1]}")
                (PyDict [("choices", PyList [PyNone; PyInt 1])])).
  { repeat split; reflexivity. }
  split; [exact H|]; split; [reflexivity|]; split; [reflexivity|].
  exact (shapeless_chunk_skipped Plain.ticking Plain.json_loads initial_state
           _ _ _ H eq_refl).
Defined.

(** ** Framing: the [data:] prefix *)

Lemma rstrip_head (c : ascii) (s : string) :
  py_isspace c = false -> rstrip (String c s) = String c (rstrip s).
Proof.
  intros Hc; simpl; now rewrite Hc, andb_false_r.
Qed.

Lemma rstrip_idempotent (s : string) : rstrip (rstrip s) = rstrip s.
Proof.
  induction s as [|c s IH]; simpl; [reflexivity|].
  destruct (str_is_empty (rstrip s) && py_isspace c)%bool eqn:Hend; [reflexivity|].
  simpl; now rewrite IH, Hend.
Qed.

Lemma lstrip_rstrip (s : string) : lstrip (rstrip s) = rstrip (lstrip s).
Proof.
  induction s as [|c s IH]; [reflexivity|].
  destruct (py_isspace c) eqn:Hc.
  - cbn [lstrip]; rewrite Hc, <- IH.
    cbn [rstrip]; rewrite Hc, andb_true_r.
    destruct (rstrip s) as [|r rs] eqn:Hr; [reflexivity|].
    cbn [str_is_empty lstrip]; now rewrite Hc.
  - cbn [lstrip]; rewrite Hc.
    rewrite (rstrip_head _ _ Hc); cbn [lstrip]; now rewrite Hc.
Qed.

Lemma strip_data_prefix (x : string) :
  strip ("data:" ++ x) = ("data:" ++ rstrip x)%string.
Proof.
  unfold strip; cbn [append lstrip].
  change (py_isspace "d") with false; cbv iota.
  do 5 (rewrite rstrip_head; [|reflexivity]).
  reflexivity.
Qed.

Lemma startswith_empty (s : string) : startswith s "" = true.
Proof.
  destruct s; reflexivity.
Qed.

Lemma payload_of_data_prefix (x : string) :
  payload_of (strip ("data:" ++ x)) = strip x.
Proof.
  rewrite strip_data_prefix.
  unfold payload_of; cbn [append startswith Ascii.eqb Bool.eqb andb String.length drop].
  rewrite startswith_empty.
  unfold strip; now rewrite lstrip_rstrip, rstrip_idempotent.
Qed.

(** X8: the [data:] prefix of server-sent events is optional: a line [data:]
    followed by [x] is processed exactly like the bare line [x], as long as
    [x] has a visible character and does not itself begin with [data:]
    once stripped.  White space after the prefix and around the line does
    not matter. *)
Theorem data_prefix_optional (clock : nat -> float)
        (json_loads : string -> result pyval) (st : stream_state) (x : string) :
  str_is_empty (strip x) = false ->
  startswith (strip x) "data:" = false ->
  payload_of (strip ("data:" ++ x)) = strip x
  /\ process_line clock json_loads st (Some ("data:" ++ x)%string)
     = process_line clock json_loads st (Some x).
Proof.
  intros Hx Hbare.
  split; [apply payload_of_data_prefix|].
  unfold process_line.
  rewrite payload_of_data_prefix.
  rewrite strip_data_prefix; cbn [append str_is_empty].
  rewrite Hx.
  unfold payload_of; rewrite Hbare, ?Hx.
  reflexivity.
Qed.

Lemma data_prefix_optional_witness :
  process_line Plain.ticking Plain.json_loads initial_state
    (Some ("data:" ++ "   heartbeat  ")%string)
  = process_line Plain.ticking Plain.json_loads initial_state (Some "   heartbeat  ")
  /\ fst (process_line Plain.ticking Plain.json_loads initial_state
            (Some "   heartbeat  "))
     = record_fragment Plain.ticking initial_state (PyStr "heartbeat").
Proof.
  split; [|reflexivity].
  exact (proj2 (data_prefix_optional Plain.ticking Plain.json_loads initial_state
                  "   heartbeat  " eq_refl eq_refl)).
Defined.

(** * Further properties of the buffered mode *)

Lemma first_choice_response_text (entries ch : list (string * pyval))
      (more : list pyval) :
  dict_lookup "choices" entries = Some (PyList (PyDict ch :: more)) ->
  response_text (PyDict entries) =
  let completion :=
    match dict_lookup "text" ch with
    | Some v => Ok v
    | None => Ok (PyStr "")
    end in
  match dict_lookup "message" ch with
  | None => completion
  | Some message =>
      chat <- py_in "content" message ;;
      if chat : bool then getitem_key message "content" else completion
  end.
Proof.
  intros Hc.
  unfold response_text; cbn [py_get bind getitem_key].
  rewrite Hc; cbn [truthy getitem_key bind getitem_first py_in].
  destruct (dict_lookup "message" ch) as [message|]; cbn [bind].
  - destruct (py_in "content" message) as [[|]|e]; cbn [bind]; try reflexivity.
    destruct (dict_lookup "text" ch); reflexivity.
  - destruct (dict_lookup "text" ch); reflexivity.
Qed.

(** X9: in the buffered mode the text of the first choice is the content of its
    message when the message is an object with a content; a message object
    without content, or no message at all, gives the text of the choice, or
    the empty string; a message that is null or a number makes the
    extraction raise [TypeError], which nothing catches. *)
Theorem message_before_text (entries ch : list (string * pyval))
        (more : list pyval) :
  dict_lookup "choices" entries = Some (PyList (PyDict ch :: more)) ->
  (forall (m : list (string * pyval)) (v : pyval),
      dict_lookup "message" ch = Some (PyDict m) ->
      dict_lookup "content" m = Some v ->
      response_text (PyDict entries) = Ok v)
  /\ ((dict_lookup "message" ch = None
       \/ exists m : list (string * pyval),
            dict_lookup "message" ch = Some (PyDict m)
            /\ dict_lookup "content" m = None) ->
      response_text (PyDict entries) =
      Ok (match dict_lookup "text" ch with
          | Some v => v
          | None => PyStr ""
          end))
  /\ (forall message : pyval,
        dict_lookup "message" ch = Some message ->
        (message = PyNone \/ (exists b, message = PyBool b)
         \/ (exists n, message = PyInt n) \/ (exists x, message = PyFloat x)) ->
        response_text (PyDict entries) = Raise TypeError).
Proof.
  intros Hc; rewrite (first_choice_response_text _ _ _ Hc); cbv zeta.
  split; [|split].
  - intros m v Hm Hv; rewrite Hm; cbn [py_in bind getitem_key].
    now rewrite Hv.
  - intros [Hm|[m [Hm Hv]]]; rewrite Hm.
    + destruct (dict_lookup "text" ch); reflexivity.
    + cbn [py_in bind]; rewrite Hv.
      destruct (dict_lookup "text" ch); reflexivity.
  - intros message Hm [->|[[b ->]|[[n ->]|[x ->]]]]; rewrite Hm; reflexivity.
Qed.

Lemma message_before_text_witness :
  response_text
    (PyDict [("choices", PyList [PyDict [("message", PyDict [("content", PyStr "hi")]);
                                         ("text", PyStr "ignored")]])])
  = Ok (PyStr "hi")
  /\ response_text
       (PyDict [("choices", PyList [PyDict [("message", PyDict [("role", PyStr "x")]);
                                            ("text", PyStr "used")]])])
     = Ok (PyStr "used")
  /\ response_text (PyDict [("choices", PyList [PyDict [("message", PyNone)]])])
     = Raise TypeError.
Proof.
  split; [|split].
  - exact (proj1 (message_before_text
             [("choices", PyList [PyDict [("message", PyDict [("content", PyStr "hi")]);
                                          ("text", PyStr "ignored")]])]
             [("message", PyDict [("content", PyStr "hi")]); ("text", PyStr "ignored")]
             [] eq_refl)
           [("content", PyStr "hi")] (PyStr "hi") eq_refl eq_refl).
  - refine (proj1 (proj2 (message_before_text
             [("choices", PyList [PyDict [("message", PyDict [("role", PyStr "x")]);
                                          ("text", PyStr "used")]])]
             [("message", PyDict [("role", PyStr "x")]); ("text", PyStr "used")]
             [] eq_refl)) _).
    right; exists [("role", PyStr "x")]; split; reflexivity.
  - refine (proj2 (proj2 (message_before_text
             [("choices", PyList [PyDict [("message", PyNone)]])]
             [("message", PyNone)] [] eq_refl)) PyNone eq_refl _).
    now left.
Defined.

Lemma usage_missing (entries : list (string * pyval)) :
  (dict_lookup "usage" entries = None
   \/ (exists u : pyval,
         dict_lookup "usage" entries = Some u /\ isinstance_dict u = false)
   \/ (exists usage : list (string * pyval),
         dict_lookup "usage" entries = Some (PyDict usage)
         /\ (dict_lookup "total_tokens" usage = None
             \/ dict_lookup "total_tokens" usage = Some PyNone))) ->
  response_usage (PyDict entries) = Ok PyNone.
Proof.
  unfold response_usage; cbn [py_in bind getitem_key].
  intros [Hu|[[u [Hu Hd]]|[usage [Hu [Hv|Hv]]]]]; rewrite Hu; cbn [bind].
  - reflexivity.
  - now rewrite Hd.
  - cbn [isinstance_dict py_get]; now rewrite Hv.
  - cbn [isinstance_dict py_get]; now rewrite Hv.
Qed.

(** X10: without a usable usage report (no usage, a usage that is not an object,
    no total_tokens in it, or a null one) the buffered run counts the tokens
    of the extracted text itself: the run is the extraction, followed by
    [token_count] on its result, followed by the division, and the report
    carries that count with the rounded seconds and throughput. *)
Theorem count_without_usage (tk : tiktoken_module) (clock : nat -> float)
        (resp : response) (model : string) (entries : list (string * pyval)) :
  raise_for_status resp = Ok tt ->
  json resp = Ok (PyDict entries) ->
  (dict_lookup "usage" entries = None
   \/ (exists u : pyval,
         dict_lookup "usage" entries = Some u /\ isinstance_dict u = false)
   \/ (exists usage : list (string * pyval),
         dict_lookup "usage" entries = Some (PyDict usage)
         /\ (dict_lookup "total_tokens" usage = None
             \/ dict_lookup "total_tokens" usage = Some PyNone))) ->
  run_non_streaming tk clock (Ok resp) model =
  (text <- response_text (PyDict entries) ;;
   n <- token_count tk text (Some model) ;;
   tps <- throughput (PyInt n) (fsub (clock 1) (clock 0)) ;;
   Ok {| mode := "non-stream"; tokens := PyInt n;
         elapsed_seconds := py_round 6 (fsub (clock 1) (clock 0));
         tokens_per_second := py_round 6 tps |}).
Proof.
  intros Hstatus Hjson Husage.
  unfold run_non_streaming, measure_non_streaming; cbn [bind].
  rewrite Hstatus, Hjson; cbn [bind].
  unfold response_locals; cbn [isinstance_dict].
  rewrite (usage_missing _ Husage).
  destruct (response_text (PyDict entries)) as [text|e]; cbn [bind fst snd];
    [|reflexivity].
  unfold count_tokens; cbn [read_local bind is_none negb].
  destruct (token_count tk text (Some model)) as [n|e]; cbn [bind]; [|reflexivity].
  destruct (throughput (PyInt n) (fsub (clock 1) (clock 0))); reflexivity.
Qed.

Lemma count_without_usage_witness :
  run_non_streaming Plain.char_tiktoken Plain.ticking
    (Ok {| raise_for_status := Ok tt;
           json := Plain.json_loads (Plain.usage_body "hi there" "null");
           iter_lines := [] |})
    "m"
  = Ok {| mode := "non-stream"; tokens := PyInt 8;
          elapsed_seconds := Plain.seconds 1;
          tokens_per_second := Plain.seconds 8 |}.
Proof.
  rewrite (count_without_usage Plain.char_tiktoken Plain.ticking
             {| raise_for_status := Ok tt;
                json := Plain.json_loads (Plain.usage_body "hi there" "null");
                iter_lines := [] |}
             "m"
             [("choices",
               PyList [PyDict [("message", PyDict [("content", PyStr "hi there")])]]);
              ("usage", PyDict [("total_tokens", PyNone)])]
             eq_refl eq_refl).
  - reflexivity.
  - right; right; exists [("total_tokens", PyNone)]; split; [reflexivity | now right].
Defined.

(** X11: the buffered mode has no guard around the extraction: when the first
    choice is null or a number, the run raises [TypeError], and a usage
    report in the same body does not save it.  The stream consumer passes
    over a chunk of the same shape. *)
Theorem malformed_choice_raises (tk : tiktoken_module) (clock : nat -> float)
        (resp : response) (model : string) (entries : list (string * pyval))
        (choice : pyval) (more : list pyval) :
  raise_for_status resp = Ok tt ->
  json resp = Ok (PyDict entries) ->
  dict_lookup "choices" entries = Some (PyList (choice :: more)) ->
  (choice = PyNone \/ (exists b, choice = PyBool b)
   \/ (exists n, choice = PyInt n) \/ (exists x, choice = PyFloat x)) ->
  run_non_streaming tk clock (Ok resp) model = Raise TypeError
  /\ text_piece_of (PyDict entries) = PyStr "".
Proof.
  intros Hstatus Hjson Hc Hchoice.
  assert (Ht : response_text (PyDict entries) = Raise TypeError
               /\ text_piece_of (PyDict entries) = PyStr "").
  { unfold response_text, text_piece_of, choice_text; cbn [py_get bind getitem_key].
    rewrite Hc; cbn [truthy bind getitem_first py_or].
    destruct Hchoice as [->|[[b ->]|[[n ->]|[x ->]]]]; split; reflexivity. }
  split; [|apply Ht].
  unfold run_non_streaming, measure_non_streaming; cbn [bind].
  rewrite Hstatus, Hjson; cbn [bind].
  unfold response_locals; cbn [isinstance_dict].
  now rewrite (proj1 Ht).
Qed.

Lemma malformed_choice_raises_witness :
  run_non_streaming Plain.no_tiktoken Plain.ticking
    (Ok {| raise_for_status := Ok tt;
           json := Ok (PyDict [("choices", PyList [PyNone]);
                               ("usage", PyDict [("total_tokens", PyInt 7)])]);
           iter_lines := [] |})
    "m"
  = Raise TypeError.
Proof.
  refine (proj1 (malformed_choice_raises Plain.no_tiktoken Plain.ticking
                   {| raise_for_status := Ok tt;
                      json := Ok (PyDict [("choices", PyList [PyNone]);
                                          ("usage", PyDict [("total_tokens", PyInt 7)])]);
                      iter_lines := [] |}
                   "m" _ PyNone [] eq_refl eq_refl eq_refl _)).
  now left.
Defined.

(** * Further properties of the token counter *)

(** ** The heuristic and white space *)

Lemma space_not_word (c : ascii) : py_isspace c = true -> re_word c = false.
Proof.
  destruct c as [[] [] [] [] [] [] [] []]; vm_compute; congruence.
Qed.

Lemma space_not_punct (c : ascii) : py_isspace c = true -> re_punct c = false.
Proof.
  intros Hc; unfold re_punct; now rewrite Hc.
Qed.

Lemma word_not_punct (c : ascii) : re_word c = true -> re_punct c = false.
Proof.
  intros Hc; unfold re_punct; now rewrite Hc, orb_true_r.
Qed.

Lemma described_at_most_length (s : string) (inside : bool) :
  count_runs re_word inside s + count_chars re_punct s <= String.length s.
Proof.
  revert inside; induction s as [|c s IH]; intros inside; simpl; [lia|].
  specialize (IH (re_word c)).
  destruct (re_word c) eqn:Hw.
  - rewrite (word_not_punct _ Hw); destruct inside; simpl; lia.
  - simpl; destruct (re_punct c); lia.
Qed.

(** X12: the heuristic never counts more tokens than the text has characters. *)
Theorem heuristic_at_most_length (s : string) :
  exists n : nat,
    heuristic_count (PyStr s) = Ok (Z.of_nat n) /\ n <= String.length s.
Proof.
  exists (described_count s); split.
  - unfold heuristic_count; now rewrite findall_described.
  - apply described_at_most_length.
Qed.

Lemma count_runs_break (p : ascii -> bool) (a b : string) (c : ascii)
      (inside : bool) :
  p c = false ->
  count_runs p inside (a ++ String c b) = count_runs p inside a + count_runs p false b.
Proof.
  intros Hc; revert inside; induction a as [|x a IH]; intros inside; simpl.
  - now rewrite Hc.
  - rewrite IH; lia.
Qed.

Lemma count_chars_break (p : ascii -> bool) (a b : string) (c : ascii) :
  p c = false ->
  count_chars p (a ++ String c b) = count_chars p a + count_chars p b.
Proof.
  intros Hc; induction a as [|x a IH]; simpl.
  - now rewrite Hc.
  - rewrite IH; lia.
Qed.

(** X13: white space separates: the heuristic count of two texts joined by a
    whitespace character is the sum of their counts. *)
Theorem heuristic_adds_over_space (a b : string) (c : ascii) (na nb : Z) :
  py_isspace c = true ->
  heuristic_count (PyStr a) = Ok na ->
  heuristic_count (PyStr b) = Ok nb ->
  heuristic_count (PyStr (a ++ String c b)) = Ok (na + nb)%Z.
Proof.
  intros Hc; unfold heuristic_count; rewrite !findall_described.
  intros Ha Hb; inversion Ha; inversion Hb; subst.
  unfold described_count.
  rewrite (count_runs_break _ _ _ _ _ (space_not_word _ Hc)).
  rewrite (count_chars_break _ _ _ _ (space_not_punct _ Hc)).
  f_equal; lia.
Qed.

Lemma heuristic_adds_over_space_witness :
  py_isspace " " = true
  /\ heuristic_count (PyStr "Hello, world") = Ok 3%Z
  /\ heuristic_count (PyStr "it's") = Ok 3%Z
  /\ heuristic_count (PyStr ("Hello, world" ++ String " " "it's")) = Ok 6%Z.
Proof.
  split; [reflexivity|]; split; [reflexivity|]; split; [reflexivity|].
  exact (heuristic_adds_over_space "Hello, world" "it's" " " 3 3
           eq_refl eq_refl eq_refl).
Defined.

Lemma lstrip_described (s : string) : described_count (lstrip s) = described_count s.
Proof.
  induction s as [|c s IH]; [reflexivity|].
  cbn [lstrip]; destruct (py_isspace c) eqn:Hc; [|reflexivity].
  rewrite IH; unfold described_count; cbn [count_runs count_chars].
  now rewrite (space_not_word _ Hc), (space_not_punct _ Hc).
Qed.

Lemma rstrip_count_runs (s : string) (inside : bool) :
  count_runs re_word inside (rstrip s) = count_runs re_word inside s.
Proof.
  revert inside; induction s as [|c s IH]; intros inside; [reflexivity|].
  cbn [rstrip].
  destruct (str_is_empty (rstrip s) && py_isspace c)%bool eqn:Hend.
  - apply andb_prop in Hend; destruct Hend as [Hr Hc].
    cbn [count_runs]; rewrite (space_not_word _ Hc); cbn [andb].
    rewrite <- IH.
    destruct (rstrip s); [reflexivity | discriminate].
  - cbn [count_runs]; now rewrite IH.
Qed.

Lemma rstrip_count_punct (s : string) :
  count_chars re_punct (rstrip s) = count_chars re_punct s.
Proof.
  induction s as [|c s IH]; [reflexivity|].
  cbn [rstrip].
  destruct (str_is_empty (rstrip s) && py_isspace c)%bool eqn:Hend.
  - apply andb_prop in Hend; destruct Hend as [Hr Hc].
    cbn [count_chars]; rewrite (space_not_punct _ Hc), <- IH.
    destruct (rstrip s); [reflexivity | discriminate].
  - cbn [count_chars]; now rewrite IH.
Qed.

(** X14: white space around a text does not count: the heuristic gives a text
    and its stripped form the same number of tokens. *)
Theorem heuristic_ignores_margins (s : string) :
  heuristic_count (PyStr (strip s)) = heuristic_count (PyStr s).
Proof.
  unfold heuristic_count; rewrite !findall_described.
  rewrite <- (lstrip_described s).
  unfold strip, described_count.
  now rewrite rstrip_count_runs, rstrip_count_punct.
Qed.

(** ** Text that is not a str *)

(** X15: [token_count] is guarded for the tokenizer only.  A text that is true
    and not a str (the content of a buffered response may be a number or a
    list of parts) is handed to the tokenizer if there is one, and when that
    is absent or raises, the heuristic raises [TypeError] to the caller. *)
Theorem token_count_non_str (tk : tiktoken_module) (text : pyval)
        (model : option string) :
  truthy text = true ->
  (forall s : string, text <> PyStr s) ->
  (TIKTOKEN_AVAILABLE tk = false -> token_count tk text model = Raise TypeError)
  /\ (forall e : exn, tiktoken_count tk text model = Raise e ->
        token_count tk text model = Raise TypeError)
  /\ (forall n : Z, token_count tk text model = Ok n ->
        TIKTOKEN_AVAILABLE tk = true /\ tiktoken_count tk text model = Ok n).
Proof.
  intros Htrue Hnot.
  assert (Hh : heuristic_count text = Raise TypeError).
  { destruct text; try reflexivity. exfalso; eapply Hnot; reflexivity. }
  unfold token_count; rewrite Htrue; cbn [negb].
  split; [|split].
  - intros Hav; now rewrite Hav.
  - intros e He; rewrite He, Hh.
    destruct (TIKTOKEN_AVAILABLE tk); reflexivity.
  - intros n; destruct (TIKTOKEN_AVAILABLE tk); [|rewrite Hh; discriminate].
    destruct (tiktoken_count tk text model) as [k|e]; cbn [try_except].
    + intros H; inversion H; split; reflexivity.
    + rewrite Hh; discriminate.
Qed.

Lemma token_count_non_str_witness :
  truthy (PyList [PyStr "part"]) = true
  /\ token_count Plain.no_tiktoken (PyList [PyStr "part"]) (Some "m") = Raise TypeError
  /\ token_count Plain.char_tiktoken (PyList [PyStr "part"]) (Some "m")
     = Raise TypeError.
Proof.
  assert (Hnot : forall s : string, PyList [PyStr "part"] <> PyStr s)
    by (intros s; discriminate).
  split; [reflexivity|].
  split.
  - exact (proj1 (token_count_non_str Plain.no_tiktoken (PyList [PyStr "part"])
                    (Some "m") eq_refl Hnot) eq_refl).
  - exact (proj1 (proj2 (token_count_non_str Plain.char_tiktoken
                           (PyList [PyStr "part"]) (Some "m") eq_refl Hnot))
                 TypeError eq_refl).
Defined.

(** * Further properties of the throughput *)

(** X16: the guard [elapsed > 0] keeps the division away from zero: computing the
    throughput never raises [ZeroDivisionError].  It fails only on a token
    count that is no number ([TypeError]) or on an int beyond the range of a
    float ([OverflowError]); for a count that is an int it cannot be the
    former. *)
Theorem throughput_failures (num_tokens : pyval) (elapsed : float) (e : exn) :
  throughput num_tokens elapsed = Raise e ->
  (e = TypeError \/ e = OverflowError)
  /\ ((exists n : Z, num_tokens = PyInt n) -> e = OverflowError).
Proof.
  unfold throughput.
  destruct (fltb fzero elapsed) eqn:Hpos; [|discriminate].
  assert (Hdiv : forall x, float_truediv x elapsed = Ok (fdiv x elapsed)).
  { intros x; destruct elapsed as [s|s| |s m ex]; try reflexivity.
    discriminate Hpos. }
  unfold py_truediv, bind.
  destruct num_tokens as [|b|n|x|s|items|entries]; try rewrite Hdiv;
    try (intros H; inversion H; subst; split;
         [now left | intros [k Hk]; discriminate Hk]);
    try discriminate.
  - unfold float_of_int.
    destruct (binary_normalize prec emax (if b then 1 else 0) 0 false);
      try rewrite Hdiv; try discriminate.
    intros H; inversion H; subst; split; [now right | reflexivity].
  - unfold float_of_int.
    destruct (binary_normalize prec emax n 0 false);
      try rewrite Hdiv; try discriminate.
    intros H; inversion H; subst; split; [now right | reflexivity].
Qed.

Lemma throughput_failures_witness :
  throughput (PyStr "7") (Plain.seconds 2) = Raise TypeError
  /\ (TypeError = TypeError \/ TypeError = OverflowError).
Proof.
  split; [reflexivity|].
  exact (proj1 (throughput_failures (PyStr "7") (Plain.seconds 2) TypeError eq_refl)).
Defined.

(** * Properties of the driver *)

(** ** [build_url] *)

Lemma append_cancel_l (a x y : string) : (a ++ x)%string = (a ++ y)%string -> x = y.
Proof.
  induction a as [|c a IH]; simpl; [tauto|].
  intros H; inversion H; auto.
Qed.

Lemma append_length (a b : string) :
  String.length (a ++ b) = String.length a + String.length b.
Proof.
  induction a as [|c a IH]; simpl; [reflexivity | now rewrite IH].
Qed.

Lemma append_cancel_r (b x y : string) : (x ++ b)%string = (y ++ b)%string -> x = y.
Proof.
  revert y; induction x as [|c x IH]; intros y H.
  - destruct y as [|d y]; [reflexivity|].
    apply (f_equal String.length) in H.
    simpl in H; rewrite append_length in H; lia.
  - destruct y as [|d y].
    + apply (f_equal String.length) in H.
      simpl in H; rewrite append_length in H; lia.
    + simpl in H; inversion H; subst; f_equal; auto.
Qed.

Lemma to_int_proper (n : Z) : Z.to_int n <> Decimal.Pos Decimal.Nil
                              /\ Z.to_int n <> Decimal.Neg Decimal.Nil.
Proof.
  destruct n as [|p|p]; simpl; split; try discriminate;
    intros H; inversion H as [Hp]; exact (DecimalPos.Unsigned.to_uint_nonnil p Hp).
Qed.

Lemma str_of_int_injective (n m : Z) : str_of_int n = str_of_int m -> n = m.
Proof.
  unfold str_of_int; intros H.
  apply (f_equal DecimalString.NilZero.int_of_string) in H.
  destruct (to_int_proper n) as [Hn1 Hn2], (to_int_proper m) as [Hm1 Hm2].
  rewrite !DecimalString.NilZero.isi in H by assumption.
  inversion H as [Hnm]; now apply DecimalZ.to_int_inj.
Qed.

(** X17: two URLs built from arguments that differ in the host only, in the port
    only or in the endpoint only are different. *)
Theorem build_url_separates (host host' : string) (port port' : Z)
        (endpoint endpoint' : string) :
  (host <> host' ->
   build_url host port endpoint <> build_url host' port endpoint)
  /\ (port <> port' ->
      build_url host port endpoint <> build_url host port' endpoint)
  /\ (endpoint <> endpoint' ->
      build_url host port endpoint <> build_url host port endpoint').
Proof.
  unfold build_url; split; [|split]; intros Hne H; apply Hne.
  - apply append_cancel_l in H.
    now apply append_cancel_r in H.
  - apply append_cancel_l, append_cancel_l, append_cancel_l in H.
    apply append_cancel_r in H.
    now apply str_of_int_injective.
  - now do 5 apply append_cancel_l in H.
Qed.

Lemma build_url_separates_witness :
  build_url "127.0.0.1" 8080 "chat/completions"
  = "http://127.0.0.1:8080/v1/chat/completions"
  /\ 8080%Z <> 8081%Z
  /\ build_url "127.0.0.1" 8080 "chat/completions"
     <> build_url "127.0.0.1" 8081 "chat/completions".
Proof.
  assert (Hne : 8080%Z <> 8081%Z) by discriminate.
  split; [reflexivity|]; split; [exact Hne|].
  exact (proj1 (proj2 (build_url_separates "127.0.0.1" "127.0.0.1" 8080 8081
                         "chat/completions" "chat/completions")) Hne).
Defined.

(** ** [main] *)

Lemma run_streaming_mode (tk : tiktoken_module) (clock : nat -> float)
      (json_loads : string -> result pyval) (post : result response)
      (model : string) (r : report) :
  run_streaming tk clock json_loads post model = Ok r -> mode r = "stream".
Proof.
  unfold run_streaming, measure_streaming, bind.
  destruct post as [resp|e]; [|discriminate].
  destruct (raise_for_status resp); [|discriminate].
  destruct (consume clock json_loads (iter_lines resp)) as [c|e]; [|discriminate].
  destruct (token_count tk (PyStr (fst c)) (Some model)) as [n|e]; [|discriminate].
  destruct (throughput (PyInt n) (snd c)) as [tps|e]; [|discriminate].
  intros H; inversion H; reflexivity.
Qed.

Lemma run_non_streaming_mode (tk : tiktoken_module) (clock : nat -> float)
      (post : result response) (model : string) (r : report) :
  run_non_streaming tk clock post model = Ok r -> mode r = "non-stream".
Proof.
  unfold run_non_streaming, measure_non_streaming, bind.
  destruct post as [resp|e]; [|discriminate].
  destruct (raise_for_status resp); [|discriminate].
  destruct (json resp) as [data|e]; [|discriminate].
  destruct (response_locals data) as [locals|e]; [|discriminate].
  destruct (count_tokens tk (snd locals) (fst locals) model) as [n|e]; [|discriminate].
  destruct (throughput n (fsub (clock 1) (clock 0))) as [tps|e]; [|discriminate].
  intros H; inversion H; reflexivity.
Qed.

Lemma main_unfolded (tk : tiktoken_module) (clock : nat -> float)
      (json_loads : string -> result pyval)
      (requests_post : request -> result response) (a : Args.t) :
  main tk clock json_loads requests_post a =
  if Args.stream a
  then run_streaming tk clock json_loads (requests_post (main_request a)) (Args.model a)
  else run_non_streaming tk clock (requests_post (main_request a)) (Args.model a).
Proof.
  unfold main, main_request; destruct (Args.stream a); reflexivity.
Qed.

(** X18: one invocation is one request: the outcome of [main] depends on the
    transport only through its answer to a single request, whose wire-level
    streaming flag agrees with the stream field of its body and with the
    command-line flag.  The report, when one is made, has the mode of that
    flag, and a failure of the transport is the failure of [main]. *)
Theorem main_sends_one_request (tk : tiktoken_module) (clock : nat -> float)
        (json_loads : string -> result pyval)
        (requests_post : request -> result response) (a : Args.t) :
  (forall requests_post' : request -> result response,
      requests_post' (main_request a) = requests_post (main_request a) ->
      main tk clock json_loads requests_post' a
      = main tk clock json_loads requests_post a)
  /\ req_stream (main_request a) = Args.stream a
  /\ getitem_key (req_json (main_request a)) "stream" = Ok (PyBool (Args.stream a))
  /\ (forall r : report,
        main tk clock json_loads requests_post a = Ok r ->
        mode r = if Args.stream a then "stream" else "non-stream")
  /\ (forall e : exn,
        requests_post (main_request a) = Raise e ->
        main tk clock json_loads requests_post a = Raise e).
Proof.
  split; [|split; [|split; [|split]]].
  - intros post' Hsame; now rewrite !main_unfolded, Hsame.
  - reflexivity.
  - unfold main_request, build_payload; cbn [req_json].
    destruct (String.eqb (Args.endpoint a) "chat/completions"); reflexivity.
  - intros r; rewrite main_unfolded.
    destruct (Args.stream a).
    + apply run_streaming_mode.
    + apply run_non_streaming_mode.
  - intros e He; rewrite main_unfolded, He.
    destruct (Args.stream a); reflexivity.
Qed.

Lemma main_sends_one_request_witness :
  main Plain.no_tiktoken Plain.ticking Plain.json_loads local_server
    (default_args true)
  = Ok {| mode := "stream"; tokens := PyInt 2;
          elapsed_seconds := Plain.seconds 2;
          tokens_per_second := Plain.seconds 1 |}
  /\ main Plain.no_tiktoken Plain.ticking Plain.json_loads local_server
       (default_args false)
     = Ok {| mode := "non-stream"; tokens := PyInt 7;
             elapsed_seconds := Plain.seconds 1;
             tokens_per_second := Plain.seconds 7 |}
  /\ mode {| mode := "stream"; tokens := PyInt 2;
             elapsed_seconds := Plain.seconds 2;
             tokens_per_second := Plain.seconds 1 |}
     = (if Args.stream (default_args true) then "stream" else "non-stream").
Proof.
  split; [reflexivity|]; split; [reflexivity|].
  exact (proj1 (proj2 (proj2 (proj2
           (main_sends_one_request Plain.no_tiktoken Plain.ticking Plain.json_loads
              local_server (default_args true)))))
           _ eq_refl).
Defined.

(** X19: the prompt reaches the server where the endpoint expects it: as the
    content of a single user message in a chat body, which has no prompt
    field, and as the prompt field in any other body, which has no
    messages. *)
Theorem payload_carries_prompt (a : Args.t) :
  getitem_key (build_payload a) "model" = Ok (PyStr (Args.model a))
  /\ getitem_key (build_payload a) "max_tokens" = Ok (PyInt (Args.max_tokens a))
  /\ (if String.eqb (Args.endpoint a) "chat/completions"
      then getitem_key (build_payload a) "messages"
           = Ok (PyList [PyDict [("role", PyStr "user");
                                 ("content", PyStr (Args.prompt a))]])
           /\ py_in "prompt" (build_payload a) = Ok false
      else getitem_key (build_payload a) "prompt" = Ok (PyStr (Args.prompt a))
           /\ py_in "messages" (build_payload a) = Ok false).
Proof.
  unfold build_payload.
  destruct (String.eqb (Args.endpoint a) "chat/completions");
    repeat split; reflexivity.
Qed.

(** * Accumulation and the preferred tokenizer *)

Lemma fragments_extend (json_loads : string -> result pyval)
      (before after : list (option string)) :
  exists extra : list pyval,
    fragments json_loads (before ++ after) = fragments json_loads before ++ extra.
Proof.
  induction before as [|raw before [extra IH]]; simpl.
  - now exists (fragments json_loads after).
  - destruct (line_event_of json_loads raw) as [| |piece].
    + now exists extra.
    + now exists [].
    + exists extra; now rewrite IH.
Qed.

(** X20: the accumulated text only grows: what the consumer returns for a stream
    begins with what it returns for any initial part of that stream. *)
Theorem text_only_grows (clock : nat -> float) (json_loads : string -> result pyval)
        (before after : list (option string)) (text text' : string)
        (elapsed elapsed' : float) :
  consume clock json_loads before = Ok (text, elapsed) ->
  consume clock json_loads (before ++ after) = Ok (text', elapsed') ->
  exists more : string, text' = (text ++ more)%string.
Proof.
  unfold consume; rewrite !consume_lines_chunks; cbn [chunks initial_state app].
  destruct (fragments_extend json_loads before after) as [extra ->].
  rewrite py_join_app; unfold bind.
  destruct (py_join (fragments json_loads before)) as [a|e]; [|discriminate].
  destruct (py_join extra) as [b|e]; [|discriminate].
  intros H H'; inversion H; inversion H'; subst.
  now exists b.
Qed.

Lemma text_only_grows_witness :
  consume Plain.ticking Plain.json_loads [Some (Plain.chat_line "Hello")]
  = Ok ("Hello", fzero)
  /\ consume Plain.ticking Plain.json_loads
       ([Some (Plain.chat_line "Hello")]
          ++ [Some (Plain.completion_line " world"); Some "data: [DONE]"])
     = Ok ("Hello world", Plain.seconds 2)
  /\ exists more : string, "Hello world" = ("Hello" ++ more)%string.
Proof.
  split; [reflexivity|]; split; [reflexivity|].
  exact (text_only_grows Plain.ticking Plain.json_loads
           [Some (Plain.chat_line "Hello")]
           [Some (Plain.completion_line " world"); Some "data: [DONE]"]
           "Hello" "Hello world" fzero (Plain.seconds 2) eq_refl eq_refl).
Defined.

(** X21: when [tiktoken] is there and works, its count is the answer and the
    heuristic is not consulted: for a text that is not empty the result is
    the number of ids that the encoding of the model returns, or that the
    default encoding returns when there is no model name or none is
    registered for it. *)
Theorem tokenizer_preferred (tk : tiktoken_module) (s : string)
        (model : option string) (enc : encoding tk) (ids : list Z) :
  s <> EmptyString ->
  TIKTOKEN_AVAILABLE tk = true ->
  encode tk enc (PyStr s) = Ok ids ->
  (match model with
   | Some m => str_is_empty m = false /\ encoding_for_model tk m = Ok enc
   | None => False
   end
   \/ (get_encoding tk "cl100k_base" = Ok enc
       /\ match model with
          | Some m => str_is_empty m = true
                      \/ exists e : exn, encoding_for_model tk m = Raise e
          | None => True
          end)) ->
  token_count tk (PyStr s) model = Ok (Z.of_nat (List.length ids)).
Proof.
  intros Hs Hav Hids Hres.
  assert (Henc : resolve_encoding tk model = Ok enc).
  { unfold resolve_encoding, default_encoding.
    destruct Hres as [Hm|[Hd Hm]].
    - destruct model as [m|]; [|contradiction].
      destruct Hm as [Hne Hm]; now rewrite Hne, Hm.
    - destruct model as [m|]; [|now rewrite Hd].
      destruct (str_is_empty m) eqn:Hem; cbn [negb]; [now rewrite Hd|].
      destruct Hm as [Hm|[e Hm]]; [discriminate|].
      now rewrite Hm. }
  unfold token_count, tiktoken_count.
  destruct s as [|c s]; [congruence|]; cbn [truthy str_is_empty negb].
  rewrite Hav, Henc; cbn [bind]; rewrite Hids; reflexivity.
Qed.

Lemma tokenizer_preferred_witness :
  token_count Plain.char_tiktoken (PyStr "a, b") (Some "gpt-x") = Ok 4%Z
  /\ heuristic_count (PyStr "a, b") = Ok 3%Z.
Proof.
  split; [|reflexivity].
  refine (tokenizer_preferred Plain.char_tiktoken "a, b" (Some "gpt-x")
            "cl100k_base" [97; 44; 32; 98]%Z _ eq_refl eq_refl _).
  - discriminate.
  - right; split; [reflexivity|].
    right; exists KeyError; reflexivity.
Defined.
